(** * surgemq session engine: a shallow embedding of [session/session.go]

    The development follows the source file top to bottom: the data model
    ([config], [publisher], [Type]), the lifecycle operations ([newSession],
    [restore], [start], [stop]), the protocol handlers
    ([onSubscribedPublish], [addTopic], [removeTopic], [newPacketID],
    [publishToTopic]) and the [publishWorker] goroutine.

    Go pointers to messages are addresses into an explicit heap, so that
    in-place mutation ([SetPacketID], [SetDup], [SetRetain]) and sharing
    between the publish queue, the ack trackers and the collaborators are
    visible.  Calls into collaborators (connection, topics manager, manager
    callbacks, logger) are recorded in an event trace; what a collaborator
    returns is an argument of the embedded function. *)

From Stdlib Require Import ZArith Lia.
From stdpp Require Import gmap strings list fin_maps.

Abbreviation loc := nat (only parsing).

(** ** The [message] package (imported by the source) *)

(** Modelled from the spec: the message package is not part of the source
    file.  The delivery guarantee of a message is one of "at most once",
    "at least once" and "exactly once". *)
Inductive QosType := QosAtMostOnce | QosAtLeastOnce | QosExactlyOnce.

Global Instance QosType_eq_dec : EqDecision QosType.
Proof. solve_decision. Defined.

(** Modelled from the spec: a PUBLISH "carries QoS, topic, payload, retain
    flag, duplicate flag, optional packet identifier"; the identifier is a
    16-bit value and 0 stands for none. *)
Record PublishMessage := mkPublish {
  pm_qos : QosType;
  pm_topic : string;
  pm_payload : list Byte.byte;
  pm_retain : bool;
  pm_dup : bool;
  pm_packetID : Z
}.

(** Modelled from the spec: [message.NewPublishMessage] is not part of the
    source file; a new PUBLISH carries no topic, no payload, QoS "at most
    once", cleared flags and no packet identifier (the identifier is
    "assigned lazily", 0 meaning none). *)
Definition NewPublishMessage : PublishMessage :=
  mkPublish QosAtMostOnce "" [] false false 0.

(** Modelled from the spec: the setters of the message package store their
    argument in the field they name.  (In Go they act through the pointer;
    [mutate] below applies them to the object in the heap.) *)
Definition SetQoS (q : QosType) (m : PublishMessage) : PublishMessage :=
  mkPublish q (pm_topic m) (pm_payload m) (pm_retain m) (pm_dup m) (pm_packetID m).
Definition SetTopic (t : string) (m : PublishMessage) : PublishMessage :=
  mkPublish (pm_qos m) t (pm_payload m) (pm_retain m) (pm_dup m) (pm_packetID m).
Definition SetPayload (p : list Byte.byte) (m : PublishMessage) : PublishMessage :=
  mkPublish (pm_qos m) (pm_topic m) p (pm_retain m) (pm_dup m) (pm_packetID m).
Definition SetRetain (b : bool) (m : PublishMessage) : PublishMessage :=
  mkPublish (pm_qos m) (pm_topic m) (pm_payload m) b (pm_dup m) (pm_packetID m).
Definition SetDup (b : bool) (m : PublishMessage) : PublishMessage :=
  mkPublish (pm_qos m) (pm_topic m) (pm_payload m) (pm_retain m) b (pm_packetID m).
Definition SetPacketID (i : Z) (m : PublishMessage) : PublishMessage :=
  mkPublish (pm_qos m) (pm_topic m) (pm_payload m) (pm_retain m) (pm_dup m) i.

(** Modelled from the spec: a [message.Provider] value, with the dynamic
    type the worker switches on (a queued message is "one of PUBLISH,
    PUBREL"; the Go interface admits other messages too) and the packet
    identifier every provider exposes. *)
Inductive Message :=
| Publish (m : PublishMessage)       (* *message.PublishMessage *)
| PubRel (packetID : Z)              (* *message.PubRelMessage *)
| OtherMessage (packetID : Z).       (* any other provider *)

Definition PacketID (m : Message) : Z :=
  match m with
  | Publish p => pm_packetID p
  | PubRel i => i
  | OtherMessage i => i
  end.

(** Modelled from the spec: what [start] reads from the connect request,
    the will ("QoS, topic, payload, retain"), the clean-session flag and
    the keep-alive. *)
Record ConnectMessage := mkConnect {
  WillFlag : bool;
  WillQos : QosType;
  WillTopic : string;
  WillMessage : list Byte.byte;
  WillRetain : bool;
  CleanSession : bool;
  KeepAlive : Z
}.

(** ** Go runtime objects *)

(** A [chan struct{}] that is only ever made, closed and polled. *)
Inductive chan := ChanNil | ChanOpen | ChanClosed.

(** [select { case <-c: ... default: }]: the receive fires only on a closed
    channel; on a nil or an open, empty channel the default branch runs. *)
Definition recv_ready (c : chan) : bool :=
  match c with ChanClosed => true | _ => false end.

(** How a call ends. [Blocks] is a call parked in a [Wait] that nothing in
    the sequential run can release. *)
Inductive outcome :=
| Returns (err : option string)
| Panics (why : string)
| Blocks.

(** What the session does to its collaborators, in program order. *)
Inductive Event :=
| EvTopicsSubscribe (topic : string) (q : QosType)
| EvTopicsRetain (p : loc) (seen : option Message)
| EvTopicsPublish (p : loc) (seen : option Message)
| EvOnClose (id : string) (subs : gmap string QosType)
| EvOnPublish (id : string) (p : loc) (seen : option Message)
| EvNewConnection (closer : nat) (keepAlive : Z)
| EvConnStart
| EvConnClose (closer : nat)
| EvWriteMessage (p : loc) (seen : option Message)
| EvLogError (what : string).

(** ** The ack tracker *)

(** Modelled from the spec: [ackQueue] ([newAckQueue], [put], [ack]) is not
    part of the source file.  It "stores the message keyed by its packet
    identifier; if an entry already exists for that identifier, the new
    registration is ignored", and acknowledging "removes the entry if
    present and invokes the owning callback", and is a no-op if absent. *)
Definition ackQueue_put (pid : Z) (p : loc) (q : gmap Z loc) : gmap Z loc :=
  match q !! pid with
  | Some _ => q
  | None => <[pid := p]> q
  end.

(** Modelled from the spec: [ack] "removes the entry if present and invokes
    the owning callback with the original message; if absent, this is a
    no-op".  The first component is the message handed to the callback. *)
Definition ackQueue_ack (pid : Z) (q : gmap Z loc) : option loc * gmap Z loc :=
  (q !! pid, delete pid q).

(** ** The session data model *)

(** [subscriptions_ref] is the Go map value of [config.subscriptions]: nil
    ([None]) or a map. *)
Record config := mkConfig {
  subscriptions_ref : option (gmap string QosType);
  id : string
}.

(** The entries of [config.subscriptions]; a nil map reads as an empty one
    (lookup, [range], [delete] and the hand-over to a callback). *)
Definition subscriptions (c : config) : gmap string QosType :=
  match subscriptions_ref c with
  | Some m => m
  | None => ∅
  end.

Record publisher := mkPublisher {
  quit : chan;
  started : Z;                 (* sync.WaitGroup counter *)
  stopped : Z;                 (* sync.WaitGroup counter *)
  messages : list loc          (* container/list of providers *)
}.

(** Modelled from the spec: the connection collaborator ([newConnection],
    [start], [writeMessage]) is not part of the source file; the session
    keeps a handle on it and closes the transport it wraps. *)
Record connection := mkConnection {
  conn_closer : nat;           (* the io.Closer handed to start *)
  conn_keepAlive : Z
}.

(** The struct [Type] of the source. *)
Record Session := mkSession {
  cfg : config;
  ack_pubIn : gmap Z loc;
  ack_pubOut : gmap Z loc;
  will : option PublishMessage;
  conn : option connection;
  wgSessionStarted : Z;
  wgSessionStopped : Z;
  pub : publisher;
  retained_list : list loc;
  running : Z;
  closed : Z;
  clean : bool;
  packetID : Z                 (* uint64 *)
}.

(** The session together with the message heap and the trace of calls made
    to collaborators. *)
Record State := mkState {
  sess : Session;
  heap : gmap loc Message;
  next_loc : loc;              (* allocation pointer *)
  trace : list Event
}.

(** *** Field updates *)

Definition set_quit (c : chan) (p : publisher) : publisher :=
  mkPublisher c (started p) (stopped p) (messages p).
Definition set_started (n : Z) (p : publisher) : publisher :=
  mkPublisher (quit p) n (stopped p) (messages p).
Definition set_stopped (n : Z) (p : publisher) : publisher :=
  mkPublisher (quit p) (started p) n (messages p).
Definition set_messages (l : list loc) (p : publisher) : publisher :=
  mkPublisher (quit p) (started p) (stopped p) l.

Definition set_subscriptions (m : gmap string QosType) (c : config) : config :=
  mkConfig (Some m) (id c).

Definition set_cfg (x : config) (s : Session) : Session :=
  mkSession x (ack_pubIn s) (ack_pubOut s) (will s) (conn s) (wgSessionStarted s)
    (wgSessionStopped s) (pub s) (retained_list s) (running s) (closed s) (clean s)
    (packetID s).
Definition set_ack_pubIn (x : gmap Z loc) (s : Session) : Session :=
  mkSession (cfg s) x (ack_pubOut s) (will s) (conn s) (wgSessionStarted s)
    (wgSessionStopped s) (pub s) (retained_list s) (running s) (closed s) (clean s)
    (packetID s).
Definition set_ack_pubOut (x : gmap Z loc) (s : Session) : Session :=
  mkSession (cfg s) (ack_pubIn s) x (will s) (conn s) (wgSessionStarted s)
    (wgSessionStopped s) (pub s) (retained_list s) (running s) (closed s) (clean s)
    (packetID s).
Definition set_will (x : option PublishMessage) (s : Session) : Session :=
  mkSession (cfg s) (ack_pubIn s) (ack_pubOut s) x (conn s) (wgSessionStarted s)
    (wgSessionStopped s) (pub s) (retained_list s) (running s) (closed s) (clean s)
    (packetID s).
Definition set_conn (x : option connection) (s : Session) : Session :=
  mkSession (cfg s) (ack_pubIn s) (ack_pubOut s) (will s) x (wgSessionStarted s)
    (wgSessionStopped s) (pub s) (retained_list s) (running s) (closed s) (clean s)
    (packetID s).
Definition set_wgSessionStarted (x : Z) (s : Session) : Session :=
  mkSession (cfg s) (ack_pubIn s) (ack_pubOut s) (will s) (conn s) x
    (wgSessionStopped s) (pub s) (retained_list s) (running s) (closed s) (clean s)
    (packetID s).
Definition set_wgSessionStopped (x : Z) (s : Session) : Session :=
  mkSession (cfg s) (ack_pubIn s) (ack_pubOut s) (will s) (conn s) (wgSessionStarted s)
    x (pub s) (retained_list s) (running s) (closed s) (clean s) (packetID s).
Definition set_pub (x : publisher) (s : Session) : Session :=
  mkSession (cfg s) (ack_pubIn s) (ack_pubOut s) (will s) (conn s) (wgSessionStarted s)
    (wgSessionStopped s) x (retained_list s) (running s) (closed s) (clean s)
    (packetID s).
Definition set_retained_list (x : list loc) (s : Session) : Session :=
  mkSession (cfg s) (ack_pubIn s) (ack_pubOut s) (will s) (conn s) (wgSessionStarted s)
    (wgSessionStopped s) (pub s) x (running s) (closed s) (clean s) (packetID s).
Definition set_running (x : Z) (s : Session) : Session :=
  mkSession (cfg s) (ack_pubIn s) (ack_pubOut s) (will s) (conn s) (wgSessionStarted s)
    (wgSessionStopped s) (pub s) (retained_list s) x (closed s) (clean s) (packetID s).
Definition set_closed (x : Z) (s : Session) : Session :=
  mkSession (cfg s) (ack_pubIn s) (ack_pubOut s) (will s) (conn s) (wgSessionStarted s)
    (wgSessionStopped s) (pub s) (retained_list s) (running s) x (clean s) (packetID s).
Definition set_clean (x : bool) (s : Session) : Session :=
  mkSession (cfg s) (ack_pubIn s) (ack_pubOut s) (will s) (conn s) (wgSessionStarted s)
    (wgSessionStopped s) (pub s) (retained_list s) (running s) (closed s) x (packetID s).
Definition set_packetID (x : Z) (s : Session) : Session :=
  mkSession (cfg s) (ack_pubIn s) (ack_pubOut s) (will s) (conn s) (wgSessionStarted s)
    (wgSessionStopped s) (pub s) (retained_list s) (running s) (closed s) (clean s) x.

Definition with_sess (f : Session -> Session) (st : State) : State :=
  mkState (f (sess st)) (heap st) (next_loc st) (trace st).
Definition with_pub (f : publisher -> publisher) (st : State) : State :=
  with_sess (fun s => set_pub (f (pub s)) s) st.
Definition set_heap (h : gmap loc Message) (st : State) : State :=
  mkState (sess st) h (next_loc st) (trace st).
Definition emit (e : Event) (st : State) : State :=
  mkState (sess st) (heap st) (next_loc st) (trace st ++ [e]).

(** [&T{...}]: a new object at a fresh address. *)
Definition alloc (m : Message) (st : State) : loc * State :=
  (next_loc st, mkState (sess st) (<[next_loc st := m]> (heap st)) (S (next_loc st)) (trace st)).

(** In-place mutation of a PUBLISH through its pointer. *)
Definition mutate (p : loc) (f : PublishMessage -> PublishMessage) (st : State) : State :=
  match heap st !! p with
  | Some (Publish m) => set_heap (<[p := Publish (f m)]> (heap st)) st
  | _ => st
  end.

(** *** sync.WaitGroup and sync/atomic *)

(** [wg.Done()] decrements, and panics when the counter becomes negative. *)
Definition wg_Done (n : Z) : Z * bool := ((n - 1)%Z, (n - 1 <? 0)%Z).

(** [atomic.CompareAndSwapInt64(&x, old, new)]. *)
Definition CompareAndSwapInt64 (x old new : Z) : bool * Z :=
  if (x =? old)%Z then (true, new) else (false, x).

(** [atomic.AddUint64(&x, d)]: the new value, wrapping at 64 bits. *)
Definition AddUint64 (x d : Z) : Z := ((x + d) mod 2 ^ 64)%Z.

(** ** [newPacketID] *)

Definition newPacketID (s : Session) : Z * Session :=
  let c := AddUint64 (packetID s) 1 in
  ((Z.land c 65535 mod 2 ^ 16)%Z, set_packetID c s).

(** The identifiers returned by [n] calls in a row, oldest first. *)
Fixpoint newPacketIDs (n : nat) (s : Session) : list Z * Session :=
  match n with
  | O => ([], s)
  | S k =>
      let '(i, s1) := newPacketID s in
      let '(l, s2) := newPacketIDs k s1 in
      (i :: l, s2)
  end.

(** ** [newSession] and [restore] *)

(** The session under construction: every field at its Go zero value, the
    queue a new empty list. *)
Definition zero_session (c : config) : Session :=
  mkSession c ∅ ∅ None None 0 0 (mkPublisher ChanNil 0 0 []) [] 0 0 false 0.

(** [subscribe_err t] is what [topicsMgr.Subscribe] returns for topic [t].
    Go ranges over the map in no fixed order; the model takes the order of
    [map_to_list]. *)
Definition newSession (c : config) (subscribe_err : string -> option string) : State :=
  foldl
    (fun st tq =>
       let st1 := emit (EvTopicsSubscribe (fst tq) (snd tq)) st in
       match subscribe_err (fst tq) with
       | Some _ => emit (EvLogError "Couldn't subscribe") st1
       | None => st1
       end)
    (mkState (zero_session c) ∅ 0 [])
    (map_to_list (subscriptions c)).

Definition PushBack (p : loc) (l : list loc) : list loc := l ++ [p].

(** [q.put(msg)]: an address with no object behind it is a nil provider,
    whose [PacketID()] cannot be read. *)
Definition put (p : loc) (h : gmap loc Message) (q : gmap Z loc) : option (gmap Z loc) :=
  match h !! p with
  | Some m => Some (ackQueue_put (PacketID m) p q)
  | None => None
  end.

(** Modelled from the spec: the persisted state, "a pair of message lists,
    outbound messages still queued for delivery, and inbound messages
    mid-handshake". *)
Record SessionMessages := mkSessionMessages {
  Out_Messages : list loc;
  In_Messages : list loc
}.

(** [for _, m := range messages.Out.Messages { PushBack(m) }] *)
Fixpoint restore_out (l : list loc) (st : State) : State :=
  match l with
  | [] => st
  | m :: rest =>
      restore_out rest (with_pub (fun p => set_messages (PushBack m (messages p)) p) st)
  end.

(** [for _, m := range messages.In.Messages { s.ack.pubIn.put(m) }] *)
Fixpoint restore_in (l : list loc) (st : State) : outcome * State :=
  match l with
  | [] => (Returns None, st)
  | m :: rest =>
      match put m (heap st) (ack_pubIn (sess st)) with
      | Some q => restore_in rest (with_sess (set_ack_pubIn q) st)
      | None => (Panics "nil pointer dereference", st)
      end
  end.

Definition restore (msgs : option SessionMessages) (st : State) : outcome * State :=
  match msgs with
  | None => (Returns None, st)
  | Some ms => restore_in (In_Messages ms) (restore_out (Out_Messages ms) st)
  end.

(** ** [onAckOut]: its body is commented out in the source *)

Definition onAckOut (msg : loc) (st : State) : State := st.

(** [s.ack.pubOut.put(msg)] and [s.ack.pubOut.ack(msg)] as the worker
    calls them; the tracker's callback is [onAckOut]. *)
Definition pubOut_put (p : loc) (st : State) : State :=
  match put p (heap st) (ack_pubOut (sess st)) with
  | Some q => with_sess (set_ack_pubOut q) st
  | None => st
  end.

Definition pubOut_ack (p : loc) (st : State) : State :=
  match heap st !! p with
  | Some m =>
      let '(found, q) := ackQueue_ack (PacketID m) (ack_pubOut (sess st)) in
      let st1 := with_sess (set_ack_pubOut q) st in
      match found with
      | Some orig => onAckOut orig st1
      | None => st1
      end
  | None => st
  end.

(** ** [publishWorker] *)

(** [isDone]: a non-blocking poll of the quit channel. *)
Definition isDone (p : publisher) : bool := recv_ready (quit p).

(** Where the worker goroutine stands.  Each step below is one section of
    the goroutine that runs without other goroutines observing it half
    done: a section under the publisher lock, or one that touches only the
    dequeued message, the outbound tracker and the transport. *)
Inductive wstate :=
| WInit                        (* spawned; before started.Done() *)
| WTop                         (* top of the loop; before isDone() *)
| WLock                        (* past isDone(); before cond.L.Lock() *)
| WWait                        (* parked in cond.Wait() *)
| WHold (p : loc)              (* front element removed, lock released *)
| WExit                        (* left the loop; deferred function pending *)
| WDone                        (* goroutine finished *)
| WCrashed (why : string)      (* panic out of the deferred function *)
| WDeadlock                    (* deferred Lock() on a lock it still holds *)
| WRecover.                    (* panicking; deferred function pending *)

(** The deferred loop over the list: the next element is read before the
    current one is removed, so every element is visited once. *)
Fixpoint drain (h : gmap loc Message) (l : list loc) : list loc :=
  match l with
  | [] => []
  | p :: rest =>
      match h !! p with
      | Some (Publish m) =>
          match pm_qos m with
          | QosAtMostOnce => drain h rest
          | _ => p :: drain h rest
          end
      | _ => p :: drain h rest
      end
  end.

(** [Front(); Value.(message.Provider); Remove(elem); Unlock()] with the
    lock held.  The type assertion panics on a nil value before the lock is
    released. *)
Definition worker_pop (st : State) : wstate * State :=
  match messages (pub (sess st)) with
  | [] => (WWait, st)
  | p :: rest =>
      match heap st !! p with
      | Some _ => (WHold p, with_pub (set_messages rest) st)
      | None => (WDeadlock, st)
      end
  end.

(** The first type switch: registration with the outbound tracker, and the
    packet identifier of a QoS>0 PUBLISH that has none. *)
Definition worker_register (p : loc) (st : State) : State :=
  match heap st !! p with
  | Some (PubRel _) => pubOut_put p st
  | Some (Publish m) =>
      match pm_qos m with
      | QosAtMostOnce => st
      | _ =>
          let st1 :=
            if (pm_packetID m =? 0)%Z then
              let '(i, s1) := newPacketID (sess st) in
              mutate p (SetPacketID i) (with_sess (fun _ => s1) st)
            else st in
          pubOut_put p st1
      end
  | _ => st
  end.

(** The second type switch, taken when [writeMessage] returned an error. *)
Definition worker_rollback (p : loc) (st : State) : State :=
  match heap st !! p with
  | Some (PubRel _) => pubOut_ack p st
  | Some (Publish m) =>
      match pm_qos m with
      | QosAtMostOnce => st
      | _ => pubOut_ack p (mutate p (SetDup true) st)
      end
  | _ => st
  end.

(** One step of the goroutine; [write_ok] is whether [conn.writeMessage]
    returns without error, and is read only by the step that calls it.  A
    panic in the body ([started.Done()] on a counter that is not positive)
    hands over to the deferred function in [WRecover]: it drains, signals
    the barrier and, having recovered, writes the log line. *)
Definition publishWorker_step (write_ok : bool) (pc : wstate) (st : State) : wstate * State :=
  match pc with
  | WInit =>
      let '(n, neg) := wg_Done (started (pub (sess st))) in
      (if neg then WRecover else WTop, with_pub (set_started n) st)
  | WTop => (if isDone (pub (sess st)) then WExit else WLock, st)
  | WLock => worker_pop st
  | WWait => if isDone (pub (sess st)) then (WExit, st) else worker_pop st
  | WHold p =>
      let st1 := worker_register p st in
      let st2 := emit (EvWriteMessage p (heap st1 !! p)) st1 in
      if write_ok then (WTop, st2)
      else
        let st3 := worker_rollback p st2 in
        (WExit, with_pub (fun q => set_messages (PushBack p (messages q)) q) st3)
  | WExit =>
      let st1 := with_pub (fun q => set_messages (drain (heap st) (messages q)) q) st in
      let '(n, neg) := wg_Done (stopped (pub (sess st1))) in
      (if neg then WCrashed "sync: negative WaitGroup counter" else WDone,
       with_pub (set_stopped n) st1)
  | WDone => (WDone, st)
  | WCrashed why => (WCrashed why, st)
  | WDeadlock => (WDeadlock, st)
  | WRecover =>
      let st1 := with_pub (fun q => set_messages (drain (heap st) (messages q)) q) st in
      let '(n, neg) := wg_Done (stopped (pub (sess st1))) in
      let st2 := with_pub (set_stopped n) st1 in
      if neg then (WCrashed "sync: negative WaitGroup counter", st2)
      else (WDone, emit (EvLogError "Recover from panic") st2)
  end.

(** ** [start] *)

(** The deferred function of [start]; [err] is the named result. *)
Definition start_deferred (err : option string) (st : State) : outcome * State :=
  let rolled :=
    match err with
    | Some _ =>
        match quit (pub (sess st)) with
        | ChanOpen =>
            inr (with_sess (set_running 0)
                   (with_sess (set_conn None) (with_pub (set_quit ChanClosed) st)))
        | ChanNil => inl "close of nil channel"
        | ChanClosed => inl "close of closed channel"
        end
    | None => inr st
    end in
  match rolled with
  | inl why => (Panics why, st)
  | inr st1 =>
      let '(n, neg) := wg_Done (wgSessionStarted (sess st1)) in
      let st2 := with_sess (set_wgSessionStarted n) st1 in
      (if neg then Panics "sync: negative WaitGroup counter" else Returns err, st2)
  end.

Definition make_will (msg : ConnectMessage) : PublishMessage :=
  SetRetain (WillRetain msg)
    (SetPayload (WillMessage msg)
       (SetTopic (WillTopic msg) (SetQoS (WillQos msg) NewPublishMessage))).

(** [s.wgSessionStopped.Wait()] at the head of [start] lets the caller
    through when the counter is zero. *)
Definition start_wait (st : State) : bool := (wgSessionStopped (sess st) =? 0)%Z.

(** [start] from the compare-and-swap on.  [newConnection_err] is the error
    [newConnection] returns.  The spawned goroutine's first step,
    [started.Done()], is run in line: [start] waits for it before it
    returns.  The second component is the worker goroutine left running. *)
Definition start_body (msg : ConnectMessage) (closer : nat)
    (newConnection_err : option string) (st : State) : outcome * option wstate * State :=
  let '(swapped, r) := CompareAndSwapInt64 (running (sess st)) 0 1 in
  if negb swapped then
    let '(o, st') := start_deferred (Some "Already running") st in (o, None, st')
  else
    let st1 := with_sess (set_running r) st in
    let st2 := with_sess (fun s => set_wgSessionStarted (wgSessionStarted s + 1) s) st1 in
    let st3 := with_sess (fun s => set_wgSessionStopped (wgSessionStopped s + 1) s) st2 in
    let st4 := if WillFlag msg then with_sess (set_will (Some (make_will msg))) st3 else st3 in
    let st5 := with_sess (set_clean (CleanSession msg)) st4 in
    let st6 := with_pub (set_quit ChanOpen) st5 in
    let st7 := emit (EvNewConnection closer (KeepAlive msg)) st6 in
    match newConnection_err with
    | Some e =>
        let '(o, st') := start_deferred (Some e) (with_sess (set_conn None) st7) in
        (o, None, st')
    | None =>
        let st8 := with_sess (set_conn (Some (mkConnection closer (KeepAlive msg)))) st7 in
        let st9 := emit EvConnStart st8 in
        let st10 := with_pub (fun p => set_stopped (stopped p + 1) p) st9 in
        let st11 := with_pub (fun p => set_started (started p + 1) p) st10 in
        let '(pc, st12) := publishWorker_step true WInit st11 in
        if (started (pub (sess st12)) =? 0)%Z then
          let '(o, st') := start_deferred None st12 in (o, Some pc, st')
        else (Blocks, Some pc, st12)
    end.

Definition start (msg : ConnectMessage) (closer : nat)
    (newConnection_err : option string) (st : State) : outcome * option wstate * State :=
  if start_wait st then start_body msg closer newConnection_err st
  else (Blocks, None, st).

(** ** [stop] *)

(** [stop] after [s.wgSessionStopped.Wait()] has returned. *)
Definition stop_after_wait (st : State) : outcome * State :=
  if clean (sess st) then (Returns None, st)
  else (Returns None,
        emit (EvOnClose (id (cfg (sess st))) (subscriptions (cfg (sess st)))) st).

(** [close_err] is the error of [conn.Close()]. *)
Definition stop (close_err : option string) (st : State) : outcome * State :=
  let '(swapped, c) := CompareAndSwapInt64 (closed (sess st)) 0 1 in
  if negb swapped then
    (if (wgSessionStarted (sess st) =? 0)%Z then Returns None else Blocks, st)
  else
    let st1 := with_sess (set_closed c) st in
    let st2 :=
      match conn (sess st1) with
      | Some cn =>
          let st' := emit (EvConnClose (conn_closer cn)) st1 in
          match close_err with
          | Some _ => emit (EvLogError "Couldn't close connection") st'
          | None => st'
          end
      | None => st1
      end in
    if (wgSessionStopped (sess st2) =? 0)%Z then stop_after_wait st2
    else (Blocks, st2).

(** ** [onSubscribedPublish] *)

Definition onSubscribedPublish (msg : loc) (st : State) : outcome * State :=
  match heap st !! msg with
  | Some (Publish pm) =>
      let m0 :=
        SetDup false
          (SetRetain false
             (SetPayload (pm_payload pm)
                (SetTopic (pm_topic pm) (SetQoS (pm_qos pm) NewPublishMessage)))) in
      let '(m, st1) := alloc (Publish m0) st in
      let queued :=
        (Returns None,
         with_pub (fun p => set_messages (PushBack m (messages p)) p) st1) in
      match pm_qos pm with
      | QosAtMostOnce =>
          if recv_ready (quit (pub (sess st1))) then
            (Returns None, emit (EvOnPublish (id (cfg (sess st1))) m (heap st1 !! m)) st1)
          else queued
      | _ => queued
      end
  | _ => (Panics "nil pointer dereference", st)
  end.

(** ** [addTopic], [removeTopic] *)

(** An assignment to an entry of a nil map panics; the deferred unlock
    runs and the session is as before. *)
Definition addTopic (topic : string) (qos : QosType) (st : State) : outcome * State :=
  match subscriptions_ref (cfg (sess st)) with
  | Some m =>
      (Returns None,
       with_sess (fun s => set_cfg (set_subscriptions (<[topic := qos]> m) (cfg s)) s) st)
  | None => (Panics "assignment to entry in nil map", st)
  end.

(** [delete] on a nil map does nothing. *)
Definition removeTopic (topic : string) (st : State) : outcome * State :=
  match subscriptions_ref (cfg (sess st)) with
  | Some m =>
      (Returns None,
       with_sess (fun s => set_cfg (set_subscriptions (delete topic m) (cfg s)) s) st)
  | None => (Returns None, st)
  end.

(** ** [publishToTopic] *)

Definition log_if (err : option string) (what : string) (st : State) : State :=
  match err with
  | Some _ => emit (EvLogError what) st
  | None => st
  end.

(** [retain_err] and [publish_err] are what [topicsMgr.Retain] and
    [topicsMgr.Publish] return. *)
Definition publishToTopic (msg : loc) (retain_err publish_err : option string)
    (st : State) : outcome * State :=
  match heap st !! msg with
  | Some (Publish pm) =>
      let st1 :=
        if pm_retain pm then
          let sa := emit (EvTopicsRetain msg (heap st !! msg)) st in
          let sb := log_if retain_err "Error retaining message" sa in
          match pm_qos pm with
          | QosAtMostOnce =>
              let m0 := SetTopic (pm_topic pm) (SetQoS (pm_qos pm) NewPublishMessage) in
              let '(m, sc) := alloc (Publish m0) sb in
              with_sess (fun s => set_retained_list (retained_list s ++ [m]) s) sc
          | _ => sb
          end
        else st in
      let st2 := mutate msg (SetRetain false) st1 in
      let st3 := emit (EvTopicsPublish msg (heap st2 !! msg)) st2 in
      (Returns None, log_if publish_err "Error retrieving subscribers list" st3)
  | _ => (Panics "nil pointer dereference", st)
  end.

(** ** [onAckIn] *)

Definition onAckIn (msg : loc) (retain_err publish_err : option string)
    (st : State) : State :=
  match heap st !! msg with
  | Some (Publish _) => snd (publishToTopic msg retain_err publish_err st)
  | _ => st
  end.

(** ** The session and its worker running together *)

(** What can happen next: one step of the worker goroutine, or a whole call
    made by another goroutine.  A handler changes the queue in one section
    under the publisher lock, so a call is one step as far as the queue
    goes; [onSubscribedPublish] polls the quit channel just before it takes
    the lock, and the poll is taken together with the push.
    [ActCloseQuit] is the close of [publisher.quit] on disconnect, which the
    package performs outside this file; closing a channel that is not open
    panics in the closer and leaves the channel as it is. *)
Inductive action :=
| ActWorker (write_ok : bool)
| ActSubscribedPublish (msg : loc)
| ActRestore (msgs : option SessionMessages)
| ActPublishToTopic (msg : loc) (retain_err publish_err : option string)
| ActAddTopic (topic : string) (qos : QosType)
| ActRemoveTopic (topic : string)
| ActStop (close_err : option string)
| ActCloseQuit.

Definition close_quit (st : State) : State :=
  match quit (pub (sess st)) with
  | ChanOpen => with_pub (set_quit ChanClosed) st
  | _ => st
  end.

Definition sys_step (a : action) (sys : wstate * State) : wstate * State :=
  let '(pc, st) := sys in
  match a with
  | ActWorker ok => publishWorker_step ok pc st
  | ActSubscribedPublish msg => (pc, snd (onSubscribedPublish msg st))
  | ActRestore msgs => (pc, snd (restore msgs st))
  | ActPublishToTopic msg e1 e2 => (pc, snd (publishToTopic msg e1 e2 st))
  | ActAddTopic t q => (pc, snd (addTopic t q st))
  | ActRemoveTopic t => (pc, snd (removeTopic t st))
  | ActStop e => (pc, snd (stop e st))
  | ActCloseQuit => (pc, close_quit st)
  end.

Definition run (acts : list action) (sys : wstate * State) : wstate * State :=
  foldl (fun s a => sys_step a s) sys acts.

(** The addresses handed to [conn.writeMessage], in call order. *)
Definition writes (t : list Event) : list loc :=
  omap (fun e => match e with EvWriteMessage p _ => Some p | _ => None end) t.

(** The addresses a call appends to the publish queue. *)
Definition pushes (a : action) (st : State) : list loc :=
  match a with
  | ActSubscribedPublish msg =>
      match heap st !! msg with
      | Some (Publish pm) =>
          match pm_qos pm with
          | QosAtMostOnce => if recv_ready (quit (pub (sess st))) then [] else [next_loc st]
          | _ => [next_loc st]
          end
      | _ => []
      end
  | ActRestore (Some ms) => Out_Messages ms
  | _ => []
  end.


(** ** Vocabulary for the worker's properties *)

(** A PUBLISH with QoS "at most once", the kind of message the spec has the
    exiting worker discard. *)
Definition is_qos0_publish (h : gmap loc Message) (p : loc) : bool :=
  match h !! p with
  | Some (Publish m) => match pm_qos m with QosAtMostOnce => true | _ => false end
  | _ => false
  end.

(** The packet identifier a QoS>0 PUBLISH leaves [worker_register] with. *)
Definition assigned_id (pm : PublishMessage) (s : Session) : Z :=
  if (pm_packetID pm =? 0)%Z then fst (newPacketID s) else pm_packetID pm.

(** The allocated PUBLISH at [p] carries packet identifier [i]. *)
Definition has_id (st : State) (p : loc) (i : Z) : Prop :=
  p < next_loc st
  /\ exists pm, heap st !! p = Some (Publish pm) /\ pm_packetID pm = i.

(** The message the worker has dequeued and not yet written. *)
Definition held (pc : wstate) : list loc :=
  match pc with WHold p => [p] | _ => [] end.

(** The worker has left its loop for good. *)
Definition exited (pc : wstate) : bool :=
  match pc with
  | WExit | WDone | WCrashed _ | WDeadlock | WRecover => true
  | _ => false
  end.

(** The deferred drain has run. *)
Definition drained (pc : wstate) : bool :=
  match pc with WDone | WCrashed _ => true | _ => false end.




(** ** Reading the trace *)

(** The calls of the manager's onClose callback, with their arguments. *)
Definition onClose_calls (t : list Event) : list (string * gmap string QosType) :=
  omap (fun e => match e with EvOnClose i s => Some (i, s) | _ => None end) t.

(** What [log_if] adds to the trace. *)
Definition log_events (err : option string) (what : string) : list Event :=
  match err with Some _ => [EvLogError what] | None => [] end.

(** ** Concrete sessions used to exercise the definitions *)

Definition cfg0 : config := mkConfig (Some {[ "a/b" := QosAtLeastOnce ]}) "client-1".

Definition connect0 : ConnectMessage :=
  mkConnect false QosAtMostOnce "" [] false false 60.

Definition no_error : string -> option string := fun _ => None.

(** A publisher's message living at address 0, with both flags set. *)
Definition hello (q : QosType) : PublishMessage :=
  mkPublish q "a/b" [Byte.x68; Byte.x69] true true 0.

(** A new session next to which another session's PUBLISH sits in the heap. *)
Definition fresh0 (q : QosType) : State :=
  snd (alloc (Publish (hello q)) (newSession cfg0 no_error)).

(** The same session once [start] has succeeded. *)
Definition started0 (q : QosType) : State :=
  snd (start connect0 1 None (fresh0 q)).

(** A started session whose queue holds, in this order, a QoS 1 PUBLISH
    (address 0), a QoS 0 PUBLISH (address 1) and a PUBREL (address 2). *)
Definition mixed0 : State :=
  let st1 := snd (alloc (Publish (hello QosAtMostOnce)) (started0 QosAtLeastOnce)) in
  let st2 := snd (alloc (PubRel 7) st1) in
  snd (restore (Some (mkSessionMessages [0; 1; 2] [])) st2).

(** A started session that has already handed out 65535 packet
    identifiers. *)
Definition worn0 : State :=
  with_sess (fun s => snd (newPacketIDs (Z.to_nat 65535) s)) (started0 QosAtLeastOnce).

(** One message is fanned out to the session, dequeued, written without
    success and requeued; the worker then leaves and drains. *)
Definition first_life : list action :=
  [ActSubscribedPublish 0; ActWorker true; ActWorker true; ActWorker false;
   ActWorker true].

(** The worker of the next connection dequeues and writes one message. *)
Definition second_life : list action :=
  [ActWorker true; ActWorker true; ActWorker true].

(** Three messages are fanned out; the write of the first fails while the
    other two are still queued. *)
Definition burst0 : list action :=
  [ActSubscribedPublish 0; ActSubscribedPublish 0; ActWorker true; ActWorker true;
   ActSubscribedPublish 0; ActWorker false].

(** ** Vocabulary for the remaining operations *)

(** The calls of [topicsMgr.Subscribe], with their arguments. *)
Definition subscribe_calls (t : list Event) : list (string * QosType) :=
  omap (fun e => match e with EvTopicsSubscribe s q => Some (s, q) | _ => None end) t.

(** The messages written to the error log. *)
Definition log_calls (t : list Event) : list string :=
  omap (fun e => match e with EvLogError w => Some w | _ => None end) t.

(** The calls of [topicsMgr.Retain], by message address. *)
Definition retain_calls (t : list Event) : list loc :=
  omap (fun e => match e with EvTopicsRetain p _ => Some p | _ => None end) t.

(** The address holds an object (the provider is not nil). *)
Definition allocated (h : gmap loc Message) (p : loc) : bool :=
  match h !! p with Some _ => true | None => false end.

(** Nothing lives at or beyond the allocation pointer. *)
Definition heap_wf (st : State) : Prop :=
  forall p, next_loc st <= p -> heap st !! p = None.

(** The outbound messages a [restore] call brings are all non-nil. *)
Definition restores_allocated (h : gmap loc Message) (a : action) : bool :=
  match a with
  | ActRestore (Some ms) => forallb (allocated h) (Out_Messages ms)
  | _ => true
  end.

(** The worker's three sections for one message, each write succeeding:
    the check at the top of the loop, the dequeue, the write. *)
Definition worker_cycle : list action :=
  [ActWorker true; ActWorker true; ActWorker true].

Fixpoint worker_cycles (n : nat) : list action :=
  match n with
  | O => []
  | S k => worker_cycle ++ worker_cycles k
  end.


Definition write_budget (pc : wstate) : nat :=
  match pc with
  | WLock | WHold _ => 1
  | _ => 0
  end.

(** Stored messages for [restore]: the PUBLISH at address 0 still to be
    sent, the PUBREL at address 2 mid-handshake. *)
Definition stored0 : SessionMessages := mkSessionMessages [0] [2].

(** A connect request that carries a will. *)
Definition will_connect0 : ConnectMessage :=
  mkConnect true QosAtLeastOnce "last/will" [Byte.x62; Byte.x79; Byte.x65] true true 30.

(** * Properties *)

(** ** Packet identifiers *)

Lemma land_65535_mod (c : Z) : (Z.land c 65535 mod 2 ^ 16 = c mod 2 ^ 16)%Z.
Proof.
  change 65535%Z with (Z.ones 16).
  rewrite Z.land_ones by lia.
  apply Z.mod_mod. lia.
Qed.

Lemma newPacketID_value (s : Session) :
  fst (newPacketID s) = ((packetID s + 1) mod 2 ^ 16)%Z.
Proof.
  unfold newPacketID, AddUint64. cbn [fst].
  rewrite land_65535_mod.
  apply Z.mod_mod_divide.
  exists (2 ^ 48)%Z. reflexivity.
Qed.

Lemma newPacketID_counter (s : Session) :
  packetID (snd (newPacketID s)) = ((packetID s + 1) mod 2 ^ 64)%Z.
Proof. reflexivity. Qed.

(** The [k]-th identifier of a row of calls (counting from 0) is the
    counter's value plus [k + 1], cut to 16 bits. *)
Lemma newPacketIDs_lookup (n : nat) : forall (s : Session) (k : nat),
  (k < n)%nat ->
  fst (newPacketIDs n s) !! k = Some ((packetID s + Z.of_nat k + 1) mod 2 ^ 16)%Z.
Proof.
  induction n as [|n IH]; intros s k Hk; [lia|].
  cbn [newPacketIDs].
  destruct (newPacketID s) as [i s1] eqn:E1.
  destruct (newPacketIDs n s1) as [l s2] eqn:E2.
  cbn [fst].
  destruct k as [|k].
  - cbn. f_equal.
    change i with (fst (i, s1)). rewrite <- E1, newPacketID_value.
    f_equal. lia.
  - cbn. change l with (fst (l, s2)). rewrite <- E2, IH by lia.
    f_equal.
    change s1 with (snd (i, s1)). rewrite <- E1, newPacketID_counter.
    rewrite <- (Z.mod_mod_divide ((packetID s + 1) mod 2 ^ 64 + Z.of_nat k + 1) (2 ^ 64) (2 ^ 16))
      by (exists (2 ^ 48)%Z; reflexivity).
    rewrite <- (Z.mod_mod_divide (packetID s + Z.of_nat (S k) + 1) (2 ^ 64) (2 ^ 16))
      by (exists (2 ^ 48)%Z; reflexivity).
    f_equal.
    rewrite <- Z.add_assoc, Z.add_mod_idemp_l by lia.
    f_equal. lia.
Qed.

Lemma newPacketIDs_length (n : nat) : forall s, length (fst (newPacketIDs n s)) = n.
Proof.
  induction n as [|n IH]; intros s; [reflexivity|].
  cbn [newPacketIDs].
  destruct (newPacketID s) as [i s1].
  specialize (IH s1). destruct (newPacketIDs n s1) as [l s2].
  cbn in *. lia.
Qed.

(** C2: on a new session the [n]-th call of [newPacketID] returns
    [n mod 2^16], however many calls are made; so the 65536-th call hands
    out the reserved value 0. *)
Theorem newPacketID_hands_out_zero (c : config) :
  (forall N n : nat, (1 <= n <= N)%nat ->
     fst (newPacketIDs N (zero_session c)) !! (n - 1)%nat
       = Some (Z.of_nat n mod 2 ^ 16)%Z)
  /\ fst (newPacketIDs (Z.to_nat 65536) (zero_session c)) !! Z.to_nat 65535 = Some 0%Z.
Proof.
  split.
  - intros N n Hn. rewrite newPacketIDs_lookup by lia.
    cbn [zero_session packetID]. do 2 f_equal. lia.
  - rewrite newPacketIDs_lookup by lia.
    cbn [zero_session packetID]. rewrite Z2Nat.id by lia. reflexivity.
Qed.

(** ** [start] on a session that is already running *)

(** When the compare-and-swap fails, [start] returns through its deferred
    function with the error set: on a live session (quit channel open) the
    rollback closes the channel, drops the connection handle and resets
    [running], whatever the barrier then does. *)
Lemma start_body_already_running msg closer e (st : State) :
  running (sess st) <> 0%Z ->
  quit (pub (sess st)) = ChanOpen ->
  start_body msg closer e st =
    (if (wgSessionStarted (sess st) - 1 <? 0)%Z
     then Panics "sync: negative WaitGroup counter"
     else Returns (Some "Already running"),
     None,
     with_sess (set_wgSessionStarted (wgSessionStarted (sess st) - 1))
       (with_sess (set_running 0)
          (with_sess (set_conn None) (with_pub (set_quit ChanClosed) st)))).
Proof.
  intros Hrun Hquit.
  unfold start_body, CompareAndSwapInt64.
  destruct (Z.eqb_spec (running (sess st)) 0) as [E|_]; [contradiction|].
  cbn [negb]. unfold start_deferred. rewrite Hquit.
  reflexivity.
Qed.

(** C1: two callers pass the wait of [start] on a new session; the first
    starts it, and the second, finding [running] at 1, closes the quit
    channel of the live session, clears its connection handle, resets
    [running] to 0 and panics on the barrier instead of returning the
    error. *)
Theorem start_while_running_tears_down :
  let st0 := fresh0 QosAtLeastOnce in
  let st1 := snd (start connect0 1 None st0) in
  let st2 := snd (start_body connect0 2 None st1) in
  start_wait st0 = true
  /\ fst (start connect0 1 None st0) = (Returns None, Some WTop)
  /\ (running (sess st1), quit (pub (sess st1)), conn (sess st1),
      wgSessionStarted (sess st1))
     = (1%Z, ChanOpen, Some (mkConnection 1 60), 0%Z)
  /\ fst (start_body connect0 2 None st1)
     = (Panics "sync: negative WaitGroup counter", None)
  /\ (running (sess st2), quit (pub (sess st2)), conn (sess st2),
      wgSessionStarted (sess st2))
     = (0%Z, ChanClosed, None, (-1)%Z).
Proof. vm_compute. repeat split. Qed.

(** ** What each operation leaves alone *)

Ltac break_match :=
  match goal with
  | |- context [match ?x with _ => _ end] => destruct x eqn:?
  | |- context [if ?x then _ else _] => destruct x eqn:?
  end.

Lemma writes_app (t1 t2 : list Event) : writes (t1 ++ t2) = writes t1 ++ writes t2.
Proof. apply omap_app. Qed.

Lemma mutate_sess p f st : sess (mutate p f st) = sess st.
Proof. unfold mutate. repeat break_match; reflexivity. Qed.

Lemma mutate_trace p f st : trace (mutate p f st) = trace st.
Proof. unfold mutate. repeat break_match; reflexivity. Qed.

Lemma pubOut_put_pub p st : pub (sess (pubOut_put p st)) = pub (sess st).
Proof. unfold pubOut_put. repeat break_match; reflexivity. Qed.

Lemma pubOut_put_trace p st : trace (pubOut_put p st) = trace st.
Proof. unfold pubOut_put. repeat break_match; reflexivity. Qed.

Lemma pubOut_put_heap p st : heap (pubOut_put p st) = heap st.
Proof. unfold pubOut_put. repeat break_match; reflexivity. Qed.

Lemma pubOut_ack_pub p st : pub (sess (pubOut_ack p st)) = pub (sess st).
Proof. unfold pubOut_ack, ackQueue_ack, onAckOut. repeat break_match; reflexivity. Qed.

Lemma pubOut_ack_trace p st : trace (pubOut_ack p st) = trace st.
Proof. unfold pubOut_ack, ackQueue_ack, onAckOut. repeat break_match; reflexivity. Qed.

Lemma pubOut_ack_heap p st : heap (pubOut_ack p st) = heap st.
Proof. unfold pubOut_ack, ackQueue_ack, onAckOut. repeat break_match; reflexivity. Qed.

Lemma addTopic_pub t q st : pub (sess (snd (addTopic t q st))) = pub (sess st).
Proof. unfold addTopic. by destruct (subscriptions_ref (cfg (sess st))). Qed.

Lemma addTopic_trace t q st : trace (snd (addTopic t q st)) = trace st.
Proof. unfold addTopic. by destruct (subscriptions_ref (cfg (sess st))). Qed.

Lemma addTopic_heap t q st : heap (snd (addTopic t q st)) = heap st.
Proof. unfold addTopic. by destruct (subscriptions_ref (cfg (sess st))). Qed.

Lemma removeTopic_pub t st : pub (sess (snd (removeTopic t st))) = pub (sess st).
Proof. unfold removeTopic. by destruct (subscriptions_ref (cfg (sess st))). Qed.

Lemma removeTopic_trace t st : trace (snd (removeTopic t st)) = trace st.
Proof. unfold removeTopic. by destruct (subscriptions_ref (cfg (sess st))). Qed.

Lemma removeTopic_heap t st : heap (snd (removeTopic t st)) = heap st.
Proof. unfold removeTopic. by destruct (subscriptions_ref (cfg (sess st))). Qed.

Lemma worker_register_pub p st : pub (sess (worker_register p st)) = pub (sess st).
Proof.
  unfold worker_register, newPacketID.
  repeat break_match; rewrite ?pubOut_put_pub, ?mutate_sess; reflexivity.
Qed.

Lemma worker_register_trace p st : trace (worker_register p st) = trace st.
Proof.
  unfold worker_register, newPacketID.
  repeat break_match; rewrite ?pubOut_put_trace, ?mutate_trace; reflexivity.
Qed.

Lemma worker_rollback_pub p st : pub (sess (worker_rollback p st)) = pub (sess st).
Proof.
  unfold worker_rollback.
  repeat break_match; rewrite ?pubOut_ack_pub, ?mutate_sess; reflexivity.
Qed.

Lemma worker_rollback_trace p st : trace (worker_rollback p st) = trace st.
Proof.
  unfold worker_rollback.
  repeat break_match; rewrite ?pubOut_ack_trace, ?mutate_trace; reflexivity.
Qed.

Lemma restore_out_messages l : forall st,
  messages (pub (sess (restore_out l st))) = messages (pub (sess st)) ++ l.
Proof.
  induction l as [|m l IH]; intros st; cbn [restore_out].
  - by rewrite app_nil_r.
  - rewrite IH. cbn. unfold PushBack. by rewrite <- app_assoc.
Qed.

Lemma restore_out_quit l : forall st,
  quit (pub (sess (restore_out l st))) = quit (pub (sess st)).
Proof.
  induction l as [|m l IH]; intros st; cbn [restore_out]; [done|].
  by rewrite IH.
Qed.

Lemma restore_out_trace l : forall st, trace (restore_out l st) = trace st.
Proof.
  induction l as [|m l IH]; intros st; cbn [restore_out]; [done|].
  by rewrite IH.
Qed.

Lemma restore_in_pub l : forall st, pub (sess (snd (restore_in l st))) = pub (sess st).
Proof.
  induction l as [|m l IH]; intros st; cbn [restore_in]; [reflexivity|].
  destruct (put m (heap st) (ack_pubIn (sess st))); [|reflexivity].
  by rewrite IH.
Qed.

Lemma restore_in_trace l : forall st, trace (snd (restore_in l st)) = trace st.
Proof.
  induction l as [|m l IH]; intros st; cbn [restore_in]; [reflexivity|].
  destruct (put m (heap st) (ack_pubIn (sess st))); [|reflexivity].
  by rewrite IH.
Qed.

Lemma publishToTopic_pub msg e1 e2 st :
  pub (sess (snd (publishToTopic msg e1 e2 st))) = pub (sess st).
Proof.
  unfold publishToTopic, log_if, alloc.
  repeat break_match; cbn; rewrite ?mutate_sess; reflexivity.
Qed.

Lemma publishToTopic_writes msg e1 e2 st :
  writes (trace (snd (publishToTopic msg e1 e2 st))) = writes (trace st).
Proof.
  unfold publishToTopic, log_if, alloc.
  repeat break_match; cbn; rewrite ?writes_app, ?mutate_trace; cbn;
    rewrite ?writes_app, ?app_nil_r; cbn; rewrite ?app_nil_r; reflexivity.
Qed.

Lemma stop_pub e st : pub (sess (snd (stop e st))) = pub (sess st).
Proof.
  unfold stop, stop_after_wait, CompareAndSwapInt64.
  repeat break_match; reflexivity.
Qed.

Lemma stop_writes e st : writes (trace (snd (stop e st))) = writes (trace st).
Proof.
  unfold stop, stop_after_wait, CompareAndSwapInt64.
  repeat break_match; cbn; rewrite ?writes_app; cbn;
    rewrite ?writes_app, ?app_nil_r; cbn; rewrite ?app_nil_r; reflexivity.
Qed.

Lemma onSubscribedPublish_quit msg st :
  quit (pub (sess (snd (onSubscribedPublish msg st)))) = quit (pub (sess st)).
Proof.
  unfold onSubscribedPublish, alloc.
  repeat break_match; reflexivity.
Qed.

Lemma onSubscribedPublish_writes msg st :
  writes (trace (snd (onSubscribedPublish msg st))) = writes (trace st).
Proof.
  unfold onSubscribedPublish, alloc.
  repeat break_match; cbn; rewrite ?writes_app; cbn; rewrite ?app_nil_r; reflexivity.
Qed.

Lemma worker_pop_quit st :
  quit (pub (sess (snd (worker_pop st)))) = quit (pub (sess st)).
Proof. unfold worker_pop. repeat break_match; reflexivity. Qed.

Lemma publishWorker_step_quit ok pc st :
  quit (pub (sess (snd (publishWorker_step ok pc st)))) = quit (pub (sess st)).
Proof.
  destruct pc; cbn [publishWorker_step]; unfold wg_Done;
    rewrite ?worker_pop_quit; try reflexivity.
  - break_match; [reflexivity | apply worker_pop_quit].
  - destruct ok; cbn; rewrite ?worker_rollback_pub; cbn;
      rewrite worker_register_pub; reflexivity.
  - break_match; reflexivity.
Qed.

(** No call and no worker step opens a quit channel that was never made. *)
Lemma sys_step_quit_nil a sys :
  quit (pub (sess (snd sys))) = ChanNil ->
  quit (pub (sess (snd (sys_step a sys)))) = ChanNil.
Proof.
  destruct sys as [pc st]. cbn [snd]. intros H.
  destruct a; cbn [sys_step snd].
  - by rewrite publishWorker_step_quit.
  - by rewrite onSubscribedPublish_quit.
  - destruct msgs as [ms|]; cbn [restore snd]; [|done].
    by rewrite restore_in_pub, restore_out_quit.
  - by rewrite publishToTopic_pub.
  - by rewrite addTopic_pub.
  - by rewrite removeTopic_pub.
  - by rewrite stop_pub.
  - unfold close_quit. by rewrite H.
Qed.

Lemma run_quit_nil acts : forall sys,
  quit (pub (sess (snd sys))) = ChanNil ->
  quit (pub (sess (snd (run acts sys)))) = ChanNil.
Proof.
  induction acts as [|a acts IH]; intros sys H; [done|].
  cbn [run foldl]. apply IH, sys_step_quit_nil, H.
Qed.

(** ** [onSubscribedPublish] *)

(** C3: the outbound copy carries the publisher's QoS, topic and payload
    with retain and dup cleared; for a QoS "at most once" message on a
    session whose quit channel is closed the copy goes to the manager's
    onPublish callback and the queue is left as it was; otherwise the copy
    is appended to the queue and no callback runs. *)
Theorem onSubscribedPublish_offline_qos0 (st : State) (msg : loc) (pm : PublishMessage) :
  heap st !! msg = Some (Publish pm) ->
  let copy := Publish (mkPublish (pm_qos pm) (pm_topic pm) (pm_payload pm) false false 0) in
  let st' := snd (onSubscribedPublish msg st) in
  fst (onSubscribedPublish msg st) = Returns None
  /\ heap st' !! next_loc st = Some copy
  /\ match pm_qos pm, quit (pub (sess st)) with
     | QosAtMostOnce, ChanClosed =>
         messages (pub (sess st')) = messages (pub (sess st))
         /\ trace st' =
            trace st ++ [EvOnPublish (id (cfg (sess st))) (next_loc st) (Some copy)]
     | _, _ =>
         messages (pub (sess st')) = messages (pub (sess st)) ++ [next_loc st]
         /\ trace st' = trace st
     end.
Proof.
  intros H copy st'. subst st' copy.
  unfold onSubscribedPublish. rewrite H. cbn.
  destruct (pm_qos pm) eqn:Hq, (quit (pub (sess st))) eqn:Hc; cbn;
    rewrite ?lookup_insert_eq; auto.
Qed.

Lemma onSubscribedPublish_offline_qos0_witness :
  let st := close_quit (started0 QosAtMostOnce) in
  heap st !! 0%nat = Some (Publish (hello QosAtMostOnce))
  /\ fst (onSubscribedPublish 0 st) = Returns None
  /\ messages (pub (sess (snd (onSubscribedPublish 0 st)))) = []
  /\ trace (snd (onSubscribedPublish 0 st)) =
     trace st ++
       [EvOnPublish "client-1" 1
          (Some (Publish (mkPublish QosAtMostOnce "a/b" [Byte.x68; Byte.x69] false false 0)))].
Proof.
  intros st.
  assert (H : heap st !! 0%nat = Some (Publish (hello QosAtMostOnce)))
    by (vm_compute; reflexivity).
  split; [exact H|].
  pose proof (onSubscribedPublish_offline_qos0 st 0%nat _ H) as (H1 & _ & H2).
  split; [exact H1|].
  vm_compute in H2. vm_compute. exact H2.
Defined.

(** [newSession] only talks to the topics manager: the session it returns
    has every field at its zero value, the quit channel nil. *)
Lemma newSession_sess c errs : sess (newSession c errs) = zero_session c.
Proof.
  unfold newSession.
  generalize (map_to_list (subscriptions c)). intros l.
  enough (G : forall s0,
    sess (foldl (fun st tq =>
       let st1 := emit (EvTopicsSubscribe (fst tq) (snd tq)) st in
       match errs (fst tq) with
       | Some _ => emit (EvLogError "Couldn't subscribe") st1
       | None => st1
       end) s0 l) = sess s0) by apply G.
  induction l as [|x l IH]; intros s0; [done|].
  cbn [foldl]. rewrite IH. by destruct (errs (fst x)).
Qed.

Lemma newSession_quit c errs : quit (pub (sess (newSession c errs))) = ChanNil.
Proof. by rewrite newSession_sess. Qed.

(** C10: on a session that was never started the quit channel is nil, so a
    QoS "at most once" message is appended to the publish queue and the
    manager's onPublish callback is not called. *)
Theorem onSubscribedPublish_never_started (c : config)
    (errs : string -> option string) (st0 : State) (acts : list action)
    (pc : wstate) (msg : loc) (pm : PublishMessage) :
  sess st0 = sess (newSession c errs) ->
  let st := snd (run acts (pc, st0)) in
  heap st !! msg = Some (Publish pm) ->
  pm_qos pm = QosAtMostOnce ->
  quit (pub (sess st)) = ChanNil
  /\ fst (onSubscribedPublish msg st) = Returns None
  /\ messages (pub (sess (snd (onSubscribedPublish msg st)))) =
     messages (pub (sess st)) ++ [next_loc st]
  /\ trace (snd (onSubscribedPublish msg st)) = trace st.
Proof.
  intros Hs st Hm Hq.
  assert (Hnil : quit (pub (sess st)) = ChanNil).
  { apply run_quit_nil. cbn [snd]. rewrite Hs. apply newSession_quit. }
  split; [exact Hnil|].
  unfold onSubscribedPublish. rewrite Hm, Hq. cbn. rewrite Hnil. cbn. auto.
Qed.

Lemma onSubscribedPublish_never_started_witness :
  let st := fresh0 QosAtMostOnce in
  quit (pub (sess st)) = ChanNil
  /\ fst (onSubscribedPublish 0 st) = Returns None
  /\ messages (pub (sess (snd (onSubscribedPublish 0 st)))) = [1%nat]
  /\ trace (snd (onSubscribedPublish 0 st)) = trace st.
Proof.
  intros st.
  assert (Hm : heap st !! 0%nat = Some (Publish (hello QosAtMostOnce)))
    by (vm_compute; reflexivity).
  pose proof (onSubscribedPublish_never_started cfg0 no_error st [] WDone 0%nat
                (hello QosAtMostOnce) eq_refl Hm eq_refl) as H.
  vm_compute in H. vm_compute. exact H.
Defined.

(** ** [stop] *)

Lemma onClose_calls_app t1 t2 :
  onClose_calls (t1 ++ t2) = onClose_calls t1 ++ onClose_calls t2.
Proof. apply omap_app. Qed.

Lemma stop_closed e st : closed (sess st) <> 0%Z -> snd (stop e st) = st.
Proof.
  intros H. unfold stop, CompareAndSwapInt64.
  destruct (Z.eqb_spec (closed (sess st)) 0); [contradiction | reflexivity].
Qed.

Lemma stop_sess e st :
  closed (sess st) = 0%Z -> sess (snd (stop e st)) = set_closed 1 (sess st).
Proof.
  intros H. unfold stop, stop_after_wait, CompareAndSwapInt64. rewrite H. cbn.
  repeat break_match; reflexivity.
Qed.

(** C8: a [stop] that finds [closed] set leaves the whole state, trace
    included, as it was.  The first [stop] changes only the [closed] flag of
    the session; once its wait is over it calls onClose with the session's
    identifier and subscription set exactly when the session is not clean,
    and every later [stop] is a no-op, so the callback runs at most once. *)
Theorem stop_idempotent (e : option string) (st : State) :
  let st' := snd (stop e st) in
  (if (closed (sess st) =? 0)%Z then
     sess st' = set_closed 1 (sess st)
     /\ onClose_calls (trace st') =
        onClose_calls (trace st) ++
          (if (wgSessionStopped (sess st) =? 0)%Z && negb (clean (sess st))
           then [(id (cfg (sess st)), subscriptions (cfg (sess st)))] else [])
     /\ fst (stop e st) =
        (if (wgSessionStopped (sess st) =? 0)%Z then Returns None else Blocks)
     /\ (forall e2, snd (stop e2 st') = st')
   else
     st' = st
     /\ fst (stop e st) =
        (if (wgSessionStarted (sess st) =? 0)%Z then Returns None else Blocks))
  /\ (forall st1,
        fst (stop_after_wait st1) = Returns None
        /\ sess (snd (stop_after_wait st1)) = sess st1
        /\ onClose_calls (trace (snd (stop_after_wait st1))) =
           onClose_calls (trace st1) ++
             (if clean (sess st1) then []
              else [(id (cfg (sess st1)), subscriptions (cfg (sess st1)))])).
Proof.
  cbn zeta. split.
  - destruct (Z.eqb_spec (closed (sess st)) 0) as [Hc|Hc].
    + split; [by apply stop_sess|].
      split; [|split].
      * unfold stop, stop_after_wait, CompareAndSwapInt64. rewrite Hc. cbn.
        destruct (conn (sess st)) as [cn|], e as [err|]; cbn;
          destruct (Z.eqb_spec (wgSessionStopped (sess st)) 0) as [Hw|Hw],
            (clean (sess st)) eqn:Hcl; cbn;
          rewrite ?onClose_calls_app, ?app_nil_r; cbn; rewrite ?app_nil_r;
          reflexivity.
      * unfold stop, stop_after_wait, CompareAndSwapInt64. rewrite Hc. cbn.
        destruct (conn (sess st)) as [cn|], e as [err|]; cbn;
          destruct (Z.eqb_spec (wgSessionStopped (sess st)) 0) as [Hw|Hw],
            (clean (sess st)) eqn:Hcl; reflexivity.
      * intros e2. apply stop_closed. rewrite stop_sess by assumption. discriminate.
    + split; [by apply stop_closed|].
      unfold stop, CompareAndSwapInt64.
      destruct (Z.eqb_spec (closed (sess st)) 0); [contradiction | reflexivity].
  - intros st1. unfold stop_after_wait.
    destruct (clean (sess st1)); cbn; rewrite ?onClose_calls_app, ?app_nil_r; auto.
Qed.

(** ** [publishToTopic] *)



(** ** The worker's exit *)

(** The deferred loop is a filter: it drops the QoS 0 PUBLISH messages and
    keeps everything else in order. *)
Lemma drain_filter h l :
  drain h l = List.filter (fun p => negb (is_qos0_publish h p)) l.
Proof.
  induction l as [|p l IH]; [reflexivity|].
  cbn [drain List.filter]. unfold is_qos0_publish at 1.
  destruct (h !! p) as [[m| |]|]; cbn; rewrite <- ?IH; try reflexivity.
  destruct (pm_qos m); cbn; rewrite <- ?IH; reflexivity.
Qed.

(** C4: the worker leaves its loop when it sees the quit channel closed (at
    the top of the loop or on waking up) or when a write fails; its deferred
    function then removes exactly the QoS 0 PUBLISH messages from the queue,
    keeps every other message in order, touches no message, and signals the
    [stopped] barrier. *)
Theorem worker_exit_drains (ok : bool) (st : State) :
  (1 <= stopped (pub (sess st)))%Z ->
  let st' := snd (publishWorker_step ok WExit st) in
  fst (publishWorker_step ok WExit st) = WDone
  /\ messages (pub (sess st')) =
     List.filter (fun p => negb (is_qos0_publish (heap st) p)) (messages (pub (sess st)))
  /\ (forall p, In p (messages (pub (sess st'))) <->
        In p (messages (pub (sess st))) /\ is_qos0_publish (heap st) p = false)
  /\ stopped (pub (sess st')) = (stopped (pub (sess st)) - 1)%Z
  /\ heap st' = heap st
  /\ publishWorker_step ok WTop st =
     (if isDone (pub (sess st)) then WExit else WLock, st)
  /\ publishWorker_step ok WWait st =
     (if isDone (pub (sess st)) then (WExit, st) else worker_pop st)
  /\ (forall p, fst (publishWorker_step false (WHold p) st) = WExit).
Proof.
  intros Hs st'. subst st'.
  cbn [publishWorker_step]. unfold wg_Done. cbn.
  destruct (Z.ltb_spec (stopped (pub (sess st)) - 1) 0) as [Hn|Hn]; [lia|].
  rewrite drain_filter.
  split; [reflexivity|]. split; [reflexivity|]. split.
  { intros p. rewrite filter_In.
    destruct (is_qos0_publish (heap st) p); cbn; intuition congruence. }
  split; [reflexivity|]. split; [reflexivity|]. split.
  { by destruct (isDone (pub (sess st))). }
  split; reflexivity.
Qed.

Lemma worker_exit_drains_witness :
  (1 <= stopped (pub (sess mixed0)))%Z
  /\ messages (pub (sess mixed0)) = [0; 1; 2]%nat
  /\ fst (publishWorker_step true WExit mixed0) = WDone
  /\ messages (pub (sess (snd (publishWorker_step true WExit mixed0)))) = [0; 2]%nat
  /\ stopped (pub (sess (snd (publishWorker_step true WExit mixed0)))) = 0%Z.
Proof.
  assert (H : (1 <= stopped (pub (sess mixed0)))%Z) by (vm_compute; discriminate).
  pose proof (worker_exit_drains true mixed0 H) as (H1 & H2 & _ & H3 & _).
  split; [exact H|]. split; [vm_compute; reflexivity|]. split; [exact H1|].
  split; [vm_compute in H2; vm_compute; exact H2|].
  vm_compute in H3. vm_compute. exact H3.
Defined.

(** ** A failed write *)

Lemma SetPacketID_same pm : SetPacketID (pm_packetID pm) pm = pm.
Proof. by destruct pm. Qed.

Lemma delete_put pid p (q : gmap Z loc) :
  delete pid (ackQueue_put pid p q) = delete pid q.
Proof.
  unfold ackQueue_put. destruct (q !! pid); [done|]. apply delete_insert_eq.
Qed.

Lemma worker_register_publish p st pm :
  heap st !! p = Some (Publish pm) ->
  pm_qos pm <> QosAtMostOnce ->
  let pid := assigned_id pm (sess st) in
  heap (worker_register p st) !! p = Some (Publish (SetPacketID pid pm))
  /\ (forall q, q <> p -> heap (worker_register p st) !! q = heap st !! q)
  /\ ack_pubOut (sess (worker_register p st)) = ackQueue_put pid p (ack_pubOut (sess st)).
Proof.
  intros Hm Hq pid. subst pid. unfold worker_register, assigned_id. rewrite Hm.
  destruct (pm_qos pm) eqn:E; [done| |].
  all: destruct (Z.eqb_spec (pm_packetID pm) 0) as [Hz|Hz].
  all: unfold pubOut_put, put, mutate, newPacketID; cbn; rewrite ?Hm; cbn.
  all: rewrite ?lookup_insert_eq, ?Hm; cbn.
  all: rewrite ?lookup_insert_eq, ?SetPacketID_same.
  all: repeat split; try reflexivity.
  all: intros q Hne; by rewrite ?lookup_insert_ne.
Qed.

Lemma worker_rollback_publish p st pm :
  heap st !! p = Some (Publish pm) ->
  pm_qos pm <> QosAtMostOnce ->
  heap (worker_rollback p st) !! p = Some (Publish (SetDup true pm))
  /\ ack_pubOut (sess (worker_rollback p st)) =
     delete (pm_packetID pm) (ack_pubOut (sess st)).
Proof.
  intros Hm Hq. unfold worker_rollback. rewrite Hm.
  destruct (pm_qos pm) eqn:E; [done| |].
  all: unfold pubOut_ack, ackQueue_ack, mutate; rewrite Hm; cbn.
  all: rewrite lookup_insert_eq; cbn.
  all: break_match; cbn; by rewrite ?lookup_insert_eq.
Qed.

(** Once the worker has left its loop it writes nothing more, whatever the
    rest of the system does. *)
Lemma sys_step_exited a sys :
  exited (fst sys) = true ->
  exited (fst (sys_step a sys)) = true
  /\ writes (trace (snd (sys_step a sys))) = writes (trace (snd sys)).
Proof.
  destruct sys as [pc st]. cbn [fst snd]. intros H.
  destruct a; cbn [sys_step fst snd];
    rewrite ?onSubscribedPublish_writes, ?publishToTopic_writes, ?stop_writes,
      ?addTopic_trace, ?removeTopic_trace; auto.
  - destruct pc; try discriminate; cbn; unfold wg_Done; auto.
    all: break_match; cbn; rewrite ?writes_app; cbn; by rewrite ?app_nil_r.
  - destruct msgs as [ms|]; cbn [restore snd]; [|done].
    by rewrite restore_in_trace, restore_out_trace.
  - split; [done|]. unfold close_quit. by break_match.
Qed.

Lemma run_exited acts : forall sys,
  exited (fst sys) = true ->
  exited (fst (run acts sys)) = true
  /\ writes (trace (snd (run acts sys))) = writes (trace (snd sys)).
Proof.
  induction acts as [|a acts IH]; intros sys H; [done|].
  cbn [run foldl]. fold (run acts (sys_step a sys)).
  destruct (sys_step_exited a sys H) as [H1 H2].
  destruct (IH _ H1) as [H3 H4]. split; [done|]. by rewrite H4.
Qed.

(** C5: when the write of the dequeued message [p] fails, the outbound
    tracker loses the entry under [p]'s packet identifier (for a PUBREL and
    for a QoS>0 PUBLISH, the two kinds that were registered) and is
    untouched otherwise; a QoS>0 PUBLISH gets its dup flag set; [p] is
    appended to the tail of the queue; and the worker leaves its loop, after
    which no run of the system makes it write again. *)
Theorem write_failure_requeues (st : State) (p : loc) (m : Message) :
  heap st !! p = Some m ->
  let st' := snd (publishWorker_step false (WHold p) st) in
  fst (publishWorker_step false (WHold p) st) = WExit
  /\ messages (pub (sess st')) = messages (pub (sess st)) ++ [p]
  /\ writes (trace st') = writes (trace st) ++ [p]
  /\ match m with
     | Publish pm =>
         match pm_qos pm with
         | QosAtMostOnce =>
             heap st' = heap st /\ ack_pubOut (sess st') = ack_pubOut (sess st)
         | _ =>
             let pid := assigned_id pm (sess st) in
             heap st' !! p = Some (Publish (SetDup true (SetPacketID pid pm)))
             /\ ack_pubOut (sess st') = delete pid (ack_pubOut (sess st))
         end
     | PubRel pid =>
         heap st' = heap st
         /\ ack_pubOut (sess st') = delete pid (ack_pubOut (sess st))
     | OtherMessage _ =>
         heap st' = heap st /\ ack_pubOut (sess st') = ack_pubOut (sess st)
     end
  /\ (forall acts,
        exited (fst (run acts (WExit, st'))) = true
        /\ writes (trace (snd (run acts (WExit, st')))) = writes (trace st')).
Proof.
  intros Hm st'. subst st'.
  split; [reflexivity|].
  split; [cbn; by rewrite worker_rollback_pub; cbn; rewrite worker_register_pub|].
  split.
  { cbn. rewrite worker_rollback_trace. cbn. by rewrite writes_app, worker_register_trace. }
  split; [|intros acts; by apply (run_exited acts (WExit, _))].
  cbn [publishWorker_step snd with_pub with_sess heap sess ack_pubOut set_pub].
  destruct m as [pm|pid|pid].
  - destruct (pm_qos pm) eqn:Hq.
    + unfold worker_rollback, worker_register, emit. rewrite Hm, Hq. cbn.
      rewrite Hm, Hq. done.
    + destruct (worker_register_publish p st pm Hm) as (H1 & _ & H2); [congruence|].
      cbn zeta in H1, H2.
      destruct (worker_rollback_publish p
                  (emit (EvWriteMessage p (heap (worker_register p st) !! p))
                     (worker_register p st)) _ H1) as [H3 H4]; [cbn; congruence|].
      split; [exact H3|]. rewrite H4. cbn. rewrite H2. apply delete_put.
    + destruct (worker_register_publish p st pm Hm) as (H1 & _ & H2); [congruence|].
      cbn zeta in H1, H2.
      destruct (worker_rollback_publish p
                  (emit (EvWriteMessage p (heap (worker_register p st) !! p))
                     (worker_register p st)) _ H1) as [H3 H4]; [cbn; congruence|].
      split; [exact H3|]. rewrite H4. cbn. rewrite H2. apply delete_put.
  - unfold worker_rollback, worker_register, emit, pubOut_put, put. rewrite Hm. cbn.
    rewrite Hm. unfold pubOut_ack, ackQueue_ack. cbn. rewrite Hm. cbn.
    break_match; cbn; by rewrite delete_put.
  - unfold worker_rollback, worker_register, emit. rewrite Hm. cbn. by rewrite Hm.
Qed.

Lemma write_failure_requeues_witness :
  let st' := snd (publishWorker_step false (WHold 0) mixed0) in
  heap mixed0 !! 0%nat = Some (Publish (hello QosAtLeastOnce))
  /\ fst (publishWorker_step false (WHold 0) mixed0) = WExit
  /\ messages (pub (sess st')) = [0; 1; 2; 0]%nat
  /\ heap st' !! 0%nat =
     Some (Publish (mkPublish QosAtLeastOnce "a/b" [Byte.x68; Byte.x69] true true 1))
  /\ ack_pubOut (sess st') = ∅.
Proof.
  intros st'.
  assert (Hm : heap mixed0 !! 0%nat = Some (Publish (hello QosAtLeastOnce)))
    by (vm_compute; reflexivity).
  pose proof (write_failure_requeues mixed0 0%nat _ Hm) as (H1 & H2 & _ & H3 & _).
  split; [exact Hm|]. split; [exact H1|].
  split; [vm_compute in H2; vm_compute; exact H2|].
  cbn [hello pm_qos] in H3. cbn zeta in H3. destruct H3 as [H3 H4].
  split; [vm_compute in H3; vm_compute; exact H3|].
  subst st'. rewrite H4. vm_compute. reflexivity.
Defined.

(** ** Packet identifiers of queued messages *)

(** A PUBLISH that already has a non-zero packet identifier keeps it, and no
    identifier is drawn for it. *)
Lemma worker_register_keeps_id p st pm :
  heap st !! p = Some (Publish pm) ->
  pm_packetID pm <> 0%Z ->
  heap (worker_register p st) = heap st
  /\ packetID (sess (worker_register p st)) = packetID (sess st).
Proof.
  intros Hm Hz. unfold worker_register. rewrite Hm.
  destruct (Z.eqb_spec (pm_packetID pm) 0) as [E|_]; [contradiction|].
  destruct (pm_qos pm); unfold pubOut_put, put; rewrite ?Hm; auto.
Qed.

(** A QoS>0 PUBLISH without one gets the next identifier of the counter. *)
Lemma worker_register_assigns p st pm :
  heap st !! p = Some (Publish pm) ->
  pm_qos pm <> QosAtMostOnce ->
  pm_packetID pm = 0%Z ->
  heap (worker_register p st) !! p
    = Some (Publish (SetPacketID (fst (newPacketID (sess st))) pm)).
Proof.
  intros Hm Hq Hz.
  destruct (worker_register_publish p st pm Hm Hq) as (H & _).
  unfold assigned_id in H. by rewrite Hz in H.
Qed.

Lemma mutate_next_loc q f st : next_loc (mutate q f st) = next_loc st.
Proof. unfold mutate. repeat break_match; reflexivity. Qed.

Lemma mutate_has_id q f st p i :
  (forall pm, pm_packetID (f pm) = pm_packetID pm) ->
  has_id st p i -> has_id (mutate q f st) p i.
Proof.
  intros Hf (Hlt & pm & Hm & Hi). split; [by rewrite mutate_next_loc|].
  unfold mutate. destruct (heap st !! q) as [[m| |]|] eqn:Hq; eauto.
  cbn. destruct (decide (q = p)) as [->|Hne].
  - rewrite lookup_insert_eq. rewrite Hm in Hq. injection Hq as <-.
    exists (f pm). by rewrite Hf.
  - rewrite lookup_insert_ne by done. eauto.
Qed.

Lemma has_id_same_heap st st' p i :
  heap st' = heap st -> next_loc st' = next_loc st -> has_id st p i -> has_id st' p i.
Proof. unfold has_id. by intros -> ->. Qed.

Lemma alloc_has_id m st p i : has_id st p i -> has_id (snd (alloc m st)) p i.
Proof.
  intros (Hlt & pm & Hm & Hi). split; [cbn; lia|].
  exists pm. cbn. rewrite lookup_insert_ne by lia. done.
Qed.

Lemma pubOut_put_next_loc p st : next_loc (pubOut_put p st) = next_loc st.
Proof. unfold pubOut_put. repeat break_match; reflexivity. Qed.
Lemma pubOut_ack_next_loc p st : next_loc (pubOut_ack p st) = next_loc st.
Proof. unfold pubOut_ack, ackQueue_ack, onAckOut. repeat break_match; reflexivity. Qed.

Lemma worker_register_has_id q st p i :
  i <> 0%Z -> has_id st p i -> has_id (worker_register q st) p i.
Proof.
  intros Hi H. unfold worker_register.
  destruct (heap st !! q) as [[m| |]|] eqn:Hq; try done.
  - destruct (pm_qos m); try done.
    all: apply (has_id_same_heap _ _ _ _ (pubOut_put_heap _ _) (pubOut_put_next_loc _ _)).
    all: destruct (Z.eqb_spec (pm_packetID m) 0) as [Hz|Hz]; try done.
    all: unfold newPacketID; cbn.
    all: destruct H as (Hlt & pm & Hm & Hpi).
    all: split; [by rewrite mutate_next_loc|].
    all: unfold mutate; cbn; rewrite Hq; cbn.
    all: destruct (decide (q = p)) as [->|Hne]; [congruence|].
    all: rewrite lookup_insert_ne by done; eauto.
  - by apply (has_id_same_heap _ _ _ _ (pubOut_put_heap _ _) (pubOut_put_next_loc _ _)).
Qed.

Lemma worker_rollback_has_id q st p i :
  has_id st p i -> has_id (worker_rollback q st) p i.
Proof.
  intros H. unfold worker_rollback.
  destruct (heap st !! q) as [[m| |]|] eqn:Hq; try done.
  - destruct (pm_qos m); try done.
    all: apply (has_id_same_heap _ _ _ _ (pubOut_ack_heap _ _) (pubOut_ack_next_loc _ _)).
    all: by apply mutate_has_id.
  - by apply (has_id_same_heap _ _ _ _ (pubOut_ack_heap _ _) (pubOut_ack_next_loc _ _)).
Qed.

Lemma restore_in_heap l : forall st,
  heap (snd (restore_in l st)) = heap st /\ next_loc (snd (restore_in l st)) = next_loc st.
Proof.
  induction l as [|m l IH]; intros st; cbn [restore_in]; [done|].
  destruct (put m (heap st) (ack_pubIn (sess st))); [|done].
  destruct (IH (with_sess (set_ack_pubIn g) st)) as [-> ->]. done.
Qed.

Lemma restore_out_heap l : forall st,
  heap (restore_out l st) = heap st /\ next_loc (restore_out l st) = next_loc st.
Proof.
  induction l as [|m l IH]; intros st; cbn [restore_out]; [done|].
  destruct (IH (with_pub (fun p => set_messages (PushBack m (messages p)) p) st)) as [-> ->].
  done.
Qed.

(** No step of the system changes a non-zero packet identifier. *)
Lemma sys_step_has_id a sys p i :
  i <> 0%Z -> has_id (snd sys) p i -> has_id (snd (sys_step a sys)) p i.
Proof.
  destruct sys as [pc st]. cbn [snd]. intros Hi H.
  destruct a; cbn [sys_step snd].
  - destruct pc; cbn [publishWorker_step]; unfold wg_Done; cbn [snd]; try done.
    + unfold worker_pop. repeat break_match; done.
    + break_match; [done|]. unfold worker_pop. repeat break_match; done.
    + set (st1 := worker_register p0 st).
      assert (H1 : has_id st1 p i) by (by apply worker_register_has_id).
      destruct write_ok; cbn [snd].
      * by apply (has_id_same_heap st1).
      * apply (has_id_same_heap
                 (worker_rollback p0 (emit (EvWriteMessage p0 (heap st1 !! p0)) st1)));
          [done | done |].
        apply worker_rollback_has_id. by apply (has_id_same_heap st1).
    + break_match; done.
  - unfold onSubscribedPublish.
    destruct (heap st !! msg) as [[pm| |]|]; try done.
    match goal with |- context [alloc ?m st] =>
      pose proof (alloc_has_id m st p i H) as Ha; cbn [alloc snd] in Ha |- * end.
    repeat break_match; exact Ha.
  - destruct msgs as [ms|]; cbn [restore snd]; [|done].
    destruct (restore_in_heap (In_Messages ms) (restore_out (Out_Messages ms) st)) as [E1 E2].
    destruct (restore_out_heap (Out_Messages ms) st) as [E3 E4].
    apply (has_id_same_heap st); congruence.
  - unfold publishToTopic.
    destruct (heap st !! msg) as [[pm| |]|]; try done.
    cbn [snd]. unfold log_if.
    assert (Hmut : forall s', has_id s' p i ->
              has_id (emit (EvTopicsPublish msg (heap (mutate msg (SetRetain false) s') !! msg))
                        (mutate msg (SetRetain false) s')) p i).
    { intros s' Hs'. apply (has_id_same_heap (mutate msg (SetRetain false) s')); try done.
      by apply mutate_has_id. }
    assert (Hlog : forall s', has_id s' p i ->
              has_id match publish_err with
                     | Some _ => emit (EvLogError "Error retrieving subscribers list") s'
                     | None => s'
                     end p i).
    { intros s' Hs'. by destruct publish_err. }
    apply Hlog, Hmut.
    destruct (pm_retain pm); [|done].
    destruct retain_err, (pm_qos pm); try done.
    all: match goal with |- context [alloc ?m ?s0] =>
           apply (has_id_same_heap (snd (alloc m s0))); [done | done |];
           apply alloc_has_id end; done.
  - unfold addTopic. by break_match.
  - unfold removeTopic. by break_match.
  - unfold stop, stop_after_wait, CompareAndSwapInt64. repeat break_match; done.
  - unfold close_quit. by break_match.
Qed.

Lemma run_has_id acts : forall sys p i,
  i <> 0%Z -> has_id (snd sys) p i -> has_id (snd (run acts sys)) p i.
Proof.
  induction acts as [|a acts IH]; intros sys p i Hi H; [done|].
  cbn [run foldl]. apply IH; [done|]. by apply sys_step_has_id.
Qed.

(** C6: on a session that has handed out 65535 identifiers, a QoS 1 message
    is dequeued and given the identifier 0; its write fails and it is
    requeued; the next worker finds the identifier still 0 and draws a
    second one, so the retransmission carries another identifier than the
    first transmission. *)
Theorem packetID_reassigned_after_wrap :
  let sys1 := run first_life (WTop, worn0) in
  let sys2 := run second_life (WTop, snd sys1) in
  packetID (sess worn0) = 65535%Z
  /\ fst sys1 = WDone
  /\ messages (pub (sess (snd sys1))) = [1%nat]
  /\ packetID (sess (snd sys1)) = 65536%Z
  /\ packetID (sess (snd sys2)) = 65537%Z
  /\ trace (snd sys2) =
     trace worn0 ++
       [EvWriteMessage 1
          (Some (Publish (mkPublish QosAtLeastOnce "a/b" [Byte.x68; Byte.x69]
                            false false 0)));
        EvWriteMessage 1
          (Some (Publish (mkPublish QosAtLeastOnce "a/b" [Byte.x68; Byte.x69]
                            false true 1)))].
Proof. vm_compute. repeat split. Qed.

(** ** Transmission order *)




Lemma worker_pop_fifo st :
  writes (trace (snd (worker_pop st))) = writes (trace st)
  /\ held (fst (worker_pop st)) ++ messages (pub (sess (snd (worker_pop st))))
     = messages (pub (sess st)).
Proof. unfold worker_pop. repeat break_match; auto. Qed.

(** What one step of the worker does to the queue and to the writes. *)
Lemma worker_step_fifo ok pc st :
  let pc' := fst (publishWorker_step ok pc st) in
  let st' := snd (publishWorker_step ok pc st) in
  match pc with
  | WHold p =>
      writes (trace st') = writes (trace st) ++ [p]
      /\ (if ok then pc' = WTop /\ messages (pub (sess st')) = messages (pub (sess st))
          else pc' = WExit /\ messages (pub (sess st')) = messages (pub (sess st)) ++ [p])
  | WExit | WRecover => drained pc' = true
  | _ =>
      writes (trace st') = writes (trace st)
      /\ held pc' ++ messages (pub (sess st')) = messages (pub (sess st))
  end.
Proof.
  destruct pc; cbn [publishWorker_step]; unfold wg_Done; cbn [fst snd].
  - by break_match.
  - by break_match.
  - apply worker_pop_fifo.
  - break_match; [done | apply worker_pop_fifo].
  - destruct ok; cbn [fst snd].
    + cbn. rewrite writes_app, worker_register_trace, worker_register_pub. auto.
    + cbn. rewrite worker_rollback_trace, worker_rollback_pub. cbn.
      rewrite writes_app, worker_register_trace, worker_register_pub. auto.
  - by break_match.
  - done.
  - done.
  - done.
  - by break_match.
Qed.

(** What a call from another goroutine does to them. *)
Lemma env_step_fifo a pc st :
  (forall ok, a <> ActWorker ok) ->
  fst (sys_step a (pc, st)) = pc
  /\ writes (trace (snd (sys_step a (pc, st)))) = writes (trace st)
  /\ messages (pub (sess (snd (sys_step a (pc, st)))))
     = messages (pub (sess st)) ++ pushes a st.
Proof.
  intros Ha. destruct a; cbn [sys_step fst snd pushes].
  - by destruct (Ha write_ok).
  - rewrite onSubscribedPublish_writes. split; [done|]. split; [done|].
    unfold onSubscribedPublish, alloc.
    destruct (heap st !! msg) as [[pm| |]|]; cbn; rewrite ?app_nil_r; try done.
    destruct (pm_qos pm); cbn; try done.
    destruct (quit (pub (sess st))); cbn; by rewrite ?app_nil_r.
  - destruct msgs as [ms|]; cbn [restore snd]; rewrite ?app_nil_r; [|done].
    by rewrite restore_in_trace, restore_in_pub, restore_out_trace, restore_out_messages.
  - by rewrite publishToTopic_writes, publishToTopic_pub, app_nil_r.
  - by rewrite addTopic_trace, addTopic_pub, app_nil_r.
  - by rewrite removeTopic_trace, removeTopic_pub, app_nil_r.
  - by rewrite stop_writes, stop_pub, app_nil_r.
  - rewrite app_nil_r. unfold close_quit. by break_match.
Qed.







(** * Further properties *)

(** ** [newSession] *)

Lemma subscribe_calls_app t1 t2 :
  subscribe_calls (t1 ++ t2) = subscribe_calls t1 ++ subscribe_calls t2.
Proof. apply omap_app. Qed.

Lemma log_calls_app t1 t2 : log_calls (t1 ++ t2) = log_calls t1 ++ log_calls t2.
Proof. apply omap_app. Qed.

Lemma newSession_fold (errs : string -> option string)
    (l : list (string * QosType)) : forall s0 : State,
  let s := foldl (fun st tq =>
       let st1 := emit (EvTopicsSubscribe (fst tq) (snd tq)) st in
       match errs (fst tq) with
       | Some _ => emit (EvLogError "Couldn't subscribe") st1
       | None => st1
       end) s0 l in
  heap s = heap s0
  /\ next_loc s = next_loc s0
  /\ subscribe_calls (trace s) = subscribe_calls (trace s0) ++ l
  /\ length (log_calls (trace s)) =
     (length (log_calls (trace s0))
      + length (List.filter (fun tq => match errs (fst tq) with Some _ => true | None => false end) l))%nat.
Proof.
  induction l as [|[t q] l IH]; intros s0; cbn zeta.
  - cbn. rewrite app_nil_r. auto with lia.
  - cbn [foldl List.filter fst snd].
    match goal with |- context [foldl ?f ?a l] =>
      destruct (IH a) as (H1 & H2 & H3 & H4) end.
    cbn zeta in *. rewrite H1, H2, H3, H4.
    destruct (errs t); cbn; rewrite ?subscribe_calls_app, ?log_calls_app; cbn;
      rewrite ?app_nil_r, ?length_app, <- ?app_assoc; cbn; repeat split; lia.
Qed.

(** X1: [newSession] calls Subscribe exactly once for every stored
    subscription, with its topic and QoS, writes one log line per failing
    topic and nothing else, and returns a session with every field at its
    zero value. *)
Theorem newSession_resubscribes (c : config) (errs : string -> option string) :
  let st := newSession c errs in
  sess st = zero_session c
  /\ heap st = ∅
  /\ subscribe_calls (trace st) ≡ₚ map_to_list (subscriptions c)
  /\ (list_to_map (subscribe_calls (trace st)) : gmap string QosType) = subscriptions c
  /\ length (log_calls (trace st)) =
     length (List.filter
               (fun tq => match errs (fst tq) with Some _ => true | None => false end)
               (map_to_list (subscriptions c))).
Proof.
  cbn zeta.
  split; [apply newSession_sess|].
  unfold newSession.
  destruct (newSession_fold errs (map_to_list (subscriptions c))
              (mkState (zero_session c) ∅ 0 [])) as (H1 & _ & H3 & H4).
  cbn zeta in *. cbn in H1, H3, H4.
  split; [exact H1|]. rewrite H3, H4.
  split; [done|]. split; [apply list_to_map_to_list|]. done.
Qed.

(** ** [restore] *)

Lemma restore_out_frame l : forall st,
  heap (restore_out l st) = heap st
  /\ next_loc (restore_out l st) = next_loc st
  /\ trace (restore_out l st) = trace st
  /\ ack_pubIn (sess (restore_out l st)) = ack_pubIn (sess st)
  /\ ack_pubOut (sess (restore_out l st)) = ack_pubOut (sess st).
Proof.
  induction l as [|m l IH]; intros st; cbn [restore_out]; [done|].
  destruct (IH (with_pub (fun p => set_messages (PushBack m (messages p)) p) st))
    as (-> & -> & -> & -> & ->). done.
Qed.

Lemma ackQueue_put_keeps pid p (q : gmap Z loc) k v :
  q !! k = Some v -> ackQueue_put pid p q !! k = Some v.
Proof.
  intros H. unfold ackQueue_put. destruct (q !! pid) eqn:E; [done|].
  rewrite lookup_insert_ne; [done|]. congruence.
Qed.

Lemma ackQueue_put_registered pid p (q : gmap Z loc) :
  is_Some (ackQueue_put pid p q !! pid).
Proof.
  unfold ackQueue_put. destruct (q !! pid) eqn:E; [by rewrite E|].
  by rewrite lookup_insert_eq.
Qed.

Lemma restore_in_registers l : forall st,
  forallb (allocated (heap st)) l = true ->
  fst (restore_in l st) = Returns None
  /\ ack_pubOut (sess (snd (restore_in l st))) = ack_pubOut (sess st)
  /\ (forall k v, ack_pubIn (sess st) !! k = Some v ->
        ack_pubIn (sess (snd (restore_in l st))) !! k = Some v)
  /\ (forall m x, In m l -> heap st !! m = Some x ->
        is_Some (ack_pubIn (sess (snd (restore_in l st))) !! PacketID x)).
Proof.
  induction l as [|m l IH]; intros st Hall; cbn [restore_in].
  - cbn. repeat split; auto. intros m x [].
  - cbn [forallb] in Hall. apply andb_true_iff in Hall as [Hm Hl].
    unfold allocated in Hm. unfold put.
    destruct (heap st !! m) as [x|] eqn:Hx; [|discriminate].
    destruct (IH (with_sess (set_ack_pubIn (ackQueue_put (PacketID x) m (ack_pubIn (sess st)))) st) Hl)
      as (H1 & H2 & H3 & H4).
    split; [exact H1|]. split; [exact H2|]. split.
    + intros k v Hk. apply H3. cbn. by apply ackQueue_put_keeps.
    + intros m' x' [<-|Hin] Hx'.
      * rewrite Hx in Hx'. injection Hx' as <-.
        destruct (ackQueue_put_registered (PacketID x) m (ack_pubIn (sess st))) as [v Hv].
        exists v. apply H3. exact Hv.
      * by apply (H4 m' x' Hin).
Qed.

(** X2: [restore] with no stored messages changes nothing; with stored
    messages whose inbound part has no nil entry it returns normally,
    appends the outbound messages to the tail of the queue in their stored
    order, and registers every inbound message with the inbound tracker
    without displacing an entry that was there; the heap, the trace and the
    outbound tracker are left alone. *)
Theorem restore_appends (ms : SessionMessages) (st : State) :
  forallb (allocated (heap st)) (In_Messages ms) = true ->
  let st' := snd (restore (Some ms) st) in
  fst (restore (Some ms) st) = Returns None
  /\ restore None st = (Returns None, st)
  /\ messages (pub (sess st')) = messages (pub (sess st)) ++ Out_Messages ms
  /\ heap st' = heap st
  /\ trace st' = trace st
  /\ ack_pubOut (sess st') = ack_pubOut (sess st)
  /\ (forall k v, ack_pubIn (sess st) !! k = Some v -> ack_pubIn (sess st') !! k = Some v)
  /\ (forall m x, In m (In_Messages ms) -> heap st !! m = Some x ->
        is_Some (ack_pubIn (sess st') !! PacketID x)).
Proof.
  intros Hall st'. subst st'. cbn [restore].
  destruct (restore_out_frame (Out_Messages ms) st) as (Hh & Hn & Ht & Hi & Ho).
  rewrite <- Hh in Hall.
  destruct (restore_in_registers (In_Messages ms) (restore_out (Out_Messages ms) st) Hall)
    as (H1 & H2 & H3 & H4).
  destruct (restore_in_heap (In_Messages ms) (restore_out (Out_Messages ms) st)) as [E1 E2].
  split; [exact H1|]. split; [reflexivity|].
  split; [by rewrite restore_in_pub, restore_out_messages|].
  split; [congruence|].
  split; [by rewrite restore_in_trace|].
  split; [congruence|].
  split.
  - intros k v Hk. apply H3. by rewrite Hi.
  - intros m x Hin Hx. apply (H4 m x Hin). by rewrite Hh.
Qed.

(** ** [newPacketID] *)

(** X3: the identifiers of a row of [newPacketID] calls are 16-bit values,
    and two of them handed out fewer than 65536 calls apart differ. *)
Theorem newPacketIDs_distinct (n : nat) (s : Session) (k1 k2 : nat) (i1 i2 : Z) :
  fst (newPacketIDs n s) !! k1 = Some i1 ->
  fst (newPacketIDs n s) !! k2 = Some i2 ->
  (k1 < k2)%nat ->
  (Z.of_nat k2 - Z.of_nat k1 < 65536)%Z ->
  (0 <= i1 < 65536)%Z /\ (0 <= i2 < 65536)%Z /\ i1 <> i2.
Proof.
  intros H1 H2 Hlt Hwin.
  assert (Hk2 : (k2 < n)%nat).
  { apply lookup_lt_Some in H2. by rewrite newPacketIDs_length in H2. }
  rewrite newPacketIDs_lookup in H1 by lia.
  rewrite newPacketIDs_lookup in H2 by lia.
  injection H1 as <-. injection H2 as <-.
  change (2 ^ 16)%Z with 65536%Z.
  split; [apply Z.mod_pos_bound; lia|]. split; [apply Z.mod_pos_bound; lia|].
  intros E.
  assert (D : ((Z.of_nat k2 - Z.of_nat k1) mod 65536 = 0)%Z).
  { replace (Z.of_nat k2 - Z.of_nat k1)%Z
      with ((packetID s + Z.of_nat k2 + 1) - (packetID s + Z.of_nat k1 + 1))%Z by lia.
    rewrite Zminus_mod, E, Z.sub_diag. reflexivity. }
  rewrite Z.mod_small in D by lia. lia.
Qed.

(** ** [addTopic], [removeTopic] *)


(** ** [start] *)

(** X5: on a stopped session [start] with a working connection returns
    nil with the worker at the top of its loop: [running] is 1, the quit
    channel is new and open, the connection handle is set, [clean] is the
    request's flag, the will is replaced only when the request carries one,
    the started barriers are back where they were, [wgSessionStopped] and
    [publisher.stopped] are one up, and the queue is as it was. *)
Theorem start_success (msg : ConnectMessage) (closer : nat) (st : State) :
  running (sess st) = 0%Z ->
  wgSessionStopped (sess st) = 0%Z ->
  started (pub (sess st)) = 0%Z ->
  (0 <= wgSessionStarted (sess st))%Z ->
  let st' := snd (start msg closer None st) in
  fst (start msg closer None st) = (Returns None, Some WTop)
  /\ running (sess st') = 1%Z
  /\ quit (pub (sess st')) = ChanOpen
  /\ conn (sess st') = Some (mkConnection closer (KeepAlive msg))
  /\ clean (sess st') = CleanSession msg
  /\ will (sess st') = (if WillFlag msg then Some (make_will msg) else will (sess st))
  /\ wgSessionStarted (sess st') = wgSessionStarted (sess st)
  /\ wgSessionStopped (sess st') = 1%Z
  /\ started (pub (sess st')) = 0%Z
  /\ stopped (pub (sess st')) = (stopped (pub (sess st)) + 1)%Z
  /\ messages (pub (sess st')) = messages (pub (sess st))
  /\ (cfg (sess st'), ack_pubIn (sess st'), ack_pubOut (sess st'),
      retained_list (sess st'), closed (sess st'), packetID (sess st'), heap st')
     = (cfg (sess st), ack_pubIn (sess st), ack_pubOut (sess st),
        retained_list (sess st), closed (sess st), packetID (sess st), heap st)
  /\ trace st' = trace st ++ [EvNewConnection closer (KeepAlive msg); EvConnStart].
Proof.
  intros Hr Hs Hst Hwg st'. subst st'.
  unfold start, start_wait. rewrite Hs. cbn [Z.eqb].
  unfold start_body, CompareAndSwapInt64. rewrite Hr. cbn [Z.eqb negb].
  cbn [publishWorker_step]. unfold wg_Done, start_deferred. 
  destruct (WillFlag msg); cbn; rewrite ?Hst, ?Hs; cbn.
  all: change (0 + 1 - 1)%Z with 0%Z; change (0 =? 0)%Z with true;
       change (0 <? 0)%Z with false; cbn iota.
  all: replace (wgSessionStarted (sess st) + 1 - 1)%Z with (wgSessionStarted (sess st)) by lia.
  all: destruct (Z.ltb_spec (wgSessionStarted (sess st)) 0); [lia|].
  all: cbn; rewrite ?Hs, ?Hst, <- ?app_assoc; repeat split; reflexivity.
Qed.

Lemma start_blocks msg closer e (st : State) :
  wgSessionStopped (sess st) <> 0%Z -> start msg closer e st = (Blocks, None, st).
Proof.
  intros H. unfold start, start_wait.
  by destruct (Z.eqb_spec (wgSessionStopped (sess st)) 0).
Qed.

(** X6: when [newConnection] fails, [start] returns its error after the
    rollback: [running] is 0 again, the quit channel just made is closed,
    the connection handle is nil and no worker runs; [wgSessionStopped]
    stays at 1, so that a later [start] waits in [wgSessionStopped.Wait()]
    until another goroutine calls [Done]. *)
Theorem start_failure_rolls_back (msg : ConnectMessage) (closer : nat) (e : string)
    (st : State) :
  running (sess st) = 0%Z ->
  wgSessionStopped (sess st) = 0%Z ->
  (0 <= wgSessionStarted (sess st))%Z ->
  let st' := snd (start msg closer (Some e) st) in
  fst (start msg closer (Some e) st) = (Returns (Some e), None)
  /\ running (sess st') = 0%Z
  /\ quit (pub (sess st')) = ChanClosed
  /\ conn (sess st') = None
  /\ wgSessionStarted (sess st') = wgSessionStarted (sess st)
  /\ wgSessionStopped (sess st') = 1%Z
  /\ clean (sess st') = CleanSession msg
  /\ (started (pub (sess st')), stopped (pub (sess st')), messages (pub (sess st')))
     = (started (pub (sess st)), stopped (pub (sess st)), messages (pub (sess st)))
  /\ trace st' = trace st ++ [EvNewConnection closer (KeepAlive msg)]
  /\ (forall msg2 closer2 e2, start msg2 closer2 e2 st' = (Blocks, None, st')).
Proof.
  intros Hr Hs Hwg st'.
  assert (H5 : wgSessionStopped (sess st') = 1%Z /\ fst (start msg closer (Some e) st) = (Returns (Some e), None)
     /\ running (sess st') = 0%Z
     /\ quit (pub (sess st')) = ChanClosed
     /\ conn (sess st') = None
     /\ wgSessionStarted (sess st') = wgSessionStarted (sess st)
     /\ clean (sess st') = CleanSession msg
     /\ (started (pub (sess st')), stopped (pub (sess st')), messages (pub (sess st')))
        = (started (pub (sess st)), stopped (pub (sess st)), messages (pub (sess st)))
     /\ trace st' = trace st ++ [EvNewConnection closer (KeepAlive msg)]).
  { subst st'.
    unfold start, start_wait. rewrite Hs. cbn [Z.eqb].
    unfold start_body, CompareAndSwapInt64. rewrite Hr. cbn [Z.eqb negb].
    unfold start_deferred, wg_Done.
    destruct (WillFlag msg); cbn; rewrite ?Hs; cbn.
    all: replace (wgSessionStarted (sess st) + 1 - 1)%Z
           with (wgSessionStarted (sess st)) by lia.
    all: destruct (Z.ltb_spec (wgSessionStarted (sess st)) 0); [lia|].
    all: cbn; rewrite ?Hs; repeat split; reflexivity. }
  destruct H5 as (H0 & H1 & H2 & H3 & H4 & H5 & H6 & H7 & H8).
  repeat (split; [assumption|]).
  intros msg2 closer2 e2. apply start_blocks. rewrite H0. discriminate.
Qed.

Lemma start_ok_fields (msg : ConnectMessage) (closer : nat) (st : State) :
  running (sess st) = 0%Z ->
  wgSessionStopped (sess st) = 0%Z ->
  started (pub (sess st)) = 0%Z ->
  (0 <= wgSessionStarted (sess st))%Z ->
  let st' := snd (start msg closer None st) in
  fst (start msg closer None st) = (Returns None, Some WTop)
  /\ closed (sess st') = closed (sess st)
  /\ conn (sess st') = Some (mkConnection closer (KeepAlive msg))
  /\ wgSessionStopped (sess st') = 1%Z
  /\ onClose_calls (trace st') = onClose_calls (trace st)
  /\ writes (trace st') = writes (trace st)
  /\ heap st' = heap st
  /\ (running (sess st'), quit (pub (sess st')), messages (pub (sess st')),
      started (pub (sess st')), stopped (pub (sess st')))
     = (1%Z, ChanOpen, messages (pub (sess st)), 0%Z, (stopped (pub (sess st)) + 1)%Z).
Proof.
  intros Hr Hs Hst Hwg st'. subst st'.
  unfold start, start_wait. rewrite Hs. cbn [Z.eqb].
  unfold start_body, CompareAndSwapInt64. rewrite Hr. cbn [Z.eqb negb].
  cbn [publishWorker_step]. unfold wg_Done, start_deferred.
  destruct (WillFlag msg); cbn; rewrite ?Hst, ?Hs; cbn.
  all: change (0 + 1 - 1)%Z with 0%Z; change (0 =? 0)%Z with true;
       change (0 <? 0)%Z with false; cbn iota.
  all: replace (wgSessionStarted (sess st) + 1 - 1)%Z with (wgSessionStarted (sess st)) by lia.
  all: destruct (Z.ltb_spec (wgSessionStarted (sess st)) 0); [lia|].
  all: cbn; rewrite ?Hs, ?onClose_calls_app, ?writes_app; cbn;
       rewrite ?app_nil_r; repeat split; reflexivity.
Qed.

Lemma stop_waits_for_teardown e cn (st : State) :
  closed (sess st) = 0%Z ->
  wgSessionStopped (sess st) <> 0%Z ->
  conn (sess st) = Some cn ->
  stop e st =
    (Blocks,
     log_if e "Couldn't close connection"
       (emit (EvConnClose (conn_closer cn)) (with_sess (set_closed 1) st))).
Proof.
  intros Hc Hs Hcn. unfold stop, CompareAndSwapInt64. rewrite Hc. cbn. rewrite Hcn.
  destruct e; cbn; destruct (Z.eqb_spec (wgSessionStopped (sess st)) 0); done.
Qed.

(** X7: [stop] on a session that [start] has brought up closes the
    transport that was handed to [start], logs a close error without
    failing, sets [closed], and then waits for the teardown: up to there the
    onClose callback has not run and the session is still marked running. *)
Theorem stop_closes_started_transport (msg : ConnectMessage) (closer : nat)
    (e : option string) (st : State) :
  running (sess st) = 0%Z ->
  wgSessionStopped (sess st) = 0%Z ->
  started (pub (sess st)) = 0%Z ->
  (0 <= wgSessionStarted (sess st))%Z ->
  closed (sess st) = 0%Z ->
  let st1 := snd (start msg closer None st) in
  let st2 := snd (stop e st1) in
  fst (stop e st1) = Blocks
  /\ closed (sess st2) = 1%Z
  /\ trace st2 = trace st1 ++ [EvConnClose closer] ++ log_events e "Couldn't close connection"
  /\ onClose_calls (trace st2) = onClose_calls (trace st)
  /\ (running (sess st2), conn (sess st2), quit (pub (sess st2)), messages (pub (sess st2)))
     = (1%Z, Some (mkConnection closer (KeepAlive msg)), ChanOpen, messages (pub (sess st))).
Proof.
  intros Hr Hs Hst Hwg Hc st1 st2. subst st2.
  destruct (start_ok_fields msg closer st Hr Hs Hst Hwg)
    as (_ & H1 & H2 & H3 & H4 & _ & _ & H5).
  fold st1 in H1, H2, H3, H4, H5.
  rewrite (stop_waits_for_teardown e _ st1) by (rewrite ?H1, ?H3; done).
  cbn [fst snd conn_closer].
  injection H5 as H5 H6 H7 _ _.
  destruct e; cbn; rewrite ?onClose_calls_app, ?H4, ?H5, ?H6, ?H7, ?H2; cbn;
    rewrite ?app_nil_r, <- ?app_assoc; repeat split; reflexivity.
Qed.

(** X8: the subscription set that [stop] hands to onClose is the one left
    by the [addTopic] and [removeTopic] calls made before it; on a nil
    subscription map, where [addTopic] stores nothing, it has no topics. *)
Theorem stop_reports_current_topics (t t' : string) (q : QosType) (e : option string)
    (st : State) :
  closed (sess st) = 0%Z ->
  wgSessionStopped (sess st) = 0%Z ->
  clean (sess st) = false ->
  let st1 := snd (removeTopic t' (snd (addTopic t q st))) in
  fst (stop e st1) = Returns None
  /\ onClose_calls (trace (snd (stop e st1))) =
     onClose_calls (trace st)
       ++ [(id (cfg (sess st)),
            match subscriptions_ref (cfg (sess st)) with
            | Some _ => delete t' (<[t := q]> (subscriptions (cfg (sess st))))
            | None => ∅
            end)].
Proof.
  intros Hc Hs Hcl st1. subst st1.
  unfold stop, stop_after_wait, CompareAndSwapInt64, addTopic, removeTopic, subscriptions.
  destruct (subscriptions_ref (cfg (sess st))) as [m|] eqn:E; cbn; rewrite ?E; cbn.
  all: rewrite Hc; cbn.
  all: destruct (conn (sess st)) as [cn|], e as [x|]; cbn; rewrite Hs; cbn; rewrite Hcl; cbn;
    rewrite ?E; cbn; rewrite ?onClose_calls_app; cbn; rewrite ?app_nil_r; auto.
Qed.

(** ** [onAckIn] and [publishToTopic] *)

Lemma retain_calls_app t1 t2 : retain_calls (t1 ++ t2) = retain_calls t1 ++ retain_calls t2.
Proof. apply omap_app. Qed.

(** X9: [publishToTopic] clears the retain flag on the caller's message
    object, so when [onAckIn] forwards the same PUBLISH a second time the
    topics manager's Retain is not called again, nothing is added to the
    retained list, and only Publish is called. *)
Theorem onAckIn_retains_once (st : State) (msg : loc) (pm : PublishMessage)
    (e1 e2 e3 e4 : option string) :
  heap st !! msg = Some (Publish pm) ->
  heap st !! next_loc st = None ->
  let st1 := onAckIn msg e1 e2 st in
  let st2 := onAckIn msg e3 e4 st1 in
  heap st1 !! msg = Some (Publish (SetRetain false pm))
  /\ retain_calls (trace st1) =
     retain_calls (trace st) ++ (if pm_retain pm then [msg] else [])
  /\ retain_calls (trace st2) = retain_calls (trace st1)
  /\ retained_list (sess st2) = retained_list (sess st1)
  /\ heap st2 = heap st1
  /\ trace st2 =
     trace st1 ++ [EvTopicsPublish msg (Some (Publish (SetRetain false pm)))]
       ++ log_events e4 "Error retrieving subscribers list".
Proof.
  intros Hm Hfree st1 st2.
  assert (Hne : msg <> next_loc st) by congruence.
  assert (H1 : heap st1 !! msg = Some (Publish (SetRetain false pm))).
  { subst st1. unfold onAckIn, publishToTopic. rewrite Hm. cbn [snd].
    destruct e1, e2, (pm_retain pm), (pm_qos pm); unfold alloc, mutate, log_if; cbn;
      rewrite ?lookup_insert_ne by congruence; rewrite ?Hm; cbn;
      by rewrite lookup_insert_eq. }
  split; [exact H1|]. split.
  { subst st1. unfold onAckIn, publishToTopic. rewrite Hm. cbn [snd].
    destruct e1, e2, (pm_retain pm), (pm_qos pm); unfold alloc, mutate, log_if; cbn;
      rewrite ?lookup_insert_ne by congruence; rewrite ?Hm; cbn;
      rewrite ?retain_calls_app; cbn; rewrite ?retain_calls_app; cbn;
      by rewrite ?app_nil_r. }
  subst st2. unfold onAckIn at 1 2 3 4. rewrite H1.
  unfold publishToTopic. rewrite H1. cbn [pm_retain SetRetain snd].
  unfold mutate. rewrite H1. cbn.
  rewrite lookup_insert_eq, insert_id by done.
  destruct e4; cbn; rewrite ?retain_calls_app; cbn; rewrite ?app_nil_r, <- ?app_assoc;
    repeat split; try reflexivity.
  all: destruct st1; reflexivity.
Qed.

(** ** [onSubscribedPublish] *)

Lemma onSubscribedPublish_effect (st : State) (msg : loc) (pm : PublishMessage) :
  heap st !! msg = Some (Publish pm) ->
  let st' := snd (onSubscribedPublish msg st) in
  heap st' =
    <[next_loc st := Publish (mkPublish (pm_qos pm) (pm_topic pm) (pm_payload pm)
                                false false 0)]> (heap st)
  /\ next_loc st' = S (next_loc st)
  /\ messages (pub (sess st')) =
     messages (pub (sess st))
       ++ match pm_qos pm, quit (pub (sess st)) with
          | QosAtMostOnce, ChanClosed => []
          | _, _ => [next_loc st]
          end
  /\ (ack_pubIn (sess st'), ack_pubOut (sess st'), packetID (sess st'),
      retained_list (sess st'), cfg (sess st'), quit (pub (sess st')))
     = (ack_pubIn (sess st), ack_pubOut (sess st), packetID (sess st),
        retained_list (sess st), cfg (sess st), quit (pub (sess st))).
Proof.
  intros Hm. cbn zeta. unfold onSubscribedPublish. rewrite Hm. cbn.
  destruct (pm_qos pm), (quit (pub (sess st))) eqn:Hc; cbn; rewrite ?app_nil_r, ?Hc;
    repeat split; reflexivity.
Qed.

(** X10: [onSubscribedPublish] never writes to the publisher's message:
    two fan-outs of one message leave it as it was and create two separate
    objects with the same QoS, topic and payload, in allocation order; the
    trackers, the packet counter, the retained list, the configuration and
    the quit channel are not touched. *)
Theorem onSubscribedPublish_fans_out (st : State) (msg : loc) (pm : PublishMessage) :
  heap st !! msg = Some (Publish pm) ->
  heap_wf st ->
  let n := next_loc st in
  let st1 := snd (onSubscribedPublish msg st) in
  let st2 := snd (onSubscribedPublish msg st1) in
  let copy := Publish (mkPublish (pm_qos pm) (pm_topic pm) (pm_payload pm) false false 0) in
  heap st2 !! msg = Some (Publish pm)
  /\ heap st2 !! n = Some copy
  /\ heap st2 !! S n = Some copy
  /\ next_loc st2 = S (S n)
  /\ heap_wf st2
  /\ (forall p, p < n -> heap st2 !! p = heap st !! p)
  /\ (ack_pubIn (sess st2), ack_pubOut (sess st2), packetID (sess st2),
      retained_list (sess st2), cfg (sess st2), quit (pub (sess st2)))
     = (ack_pubIn (sess st), ack_pubOut (sess st), packetID (sess st),
        retained_list (sess st), cfg (sess st), quit (pub (sess st)))
  /\ messages (pub (sess st2)) =
     messages (pub (sess st))
       ++ match pm_qos pm, quit (pub (sess st)) with
          | QosAtMostOnce, ChanClosed => []
          | _, _ => [n; S n]
          end.
Proof.
  intros Hm Hwf n st1 st2 copy.
  assert (Hlt : msg < n).
  { destruct (decide (msg < n)) as [|Hge]; [done|].
    rewrite (Hwf msg) in Hm by lia. discriminate. }
  destruct (onSubscribedPublish_effect st msg pm Hm) as (Hh1 & Hn1 & Hq1 & Hs1).
  fold st1 n in Hh1, Hn1, Hq1, Hs1. fold copy in Hh1.
  assert (Hm1 : heap st1 !! msg = Some (Publish pm)).
  { rewrite Hh1, lookup_insert_ne by lia. done. }
  destruct (onSubscribedPublish_effect st1 msg pm Hm1) as (Hh2 & Hn2 & Hq2 & Hs2).
  fold st2 in Hh2, Hn2, Hq2, Hs2. fold copy in Hh2. rewrite Hn1 in Hh2, Hn2, Hq2.
  injection Hs1 as E1 E2 E3 E4 E5 E6. rewrite E6 in Hq2.
  rewrite Hh2, Hh1, Hn2, Hq2, Hq1, Hs2, E1, E2, E3, E4, E5, E6.
  split; [by rewrite !lookup_insert_ne by lia|].
  split; [by rewrite lookup_insert_ne, lookup_insert_eq by lia|].
  split; [by rewrite lookup_insert_eq|].
  split; [done|].
  split.
  { intros p Hp. rewrite Hh2, Hh1, Hn2 in *. rewrite !lookup_insert_ne by lia.
    apply Hwf. fold n. lia. }
  split; [intros p Hp; by rewrite !lookup_insert_ne by lia|].
  split; [done|].
  rewrite <- app_assoc. f_equal.
  by destruct (pm_qos pm), (quit (pub (sess st))).
Qed.

(** ** [publishWorker] *)

Lemma pubOut_put_packetID p st : packetID (sess (pubOut_put p st)) = packetID (sess st).
Proof. unfold pubOut_put. by destruct (put p (heap st) (ack_pubOut (sess st))). Qed.

(** The packet counter moves only for a QoS>0 PUBLISH without identifier. *)
Lemma worker_register_packetID p st :
  packetID (sess (worker_register p st)) =
    match heap st !! p with
    | Some (Publish pm) =>
        match pm_qos pm with
        | QosAtMostOnce => packetID (sess st)
        | _ => if (pm_packetID pm =? 0)%Z then AddUint64 (packetID (sess st)) 1
               else packetID (sess st)
        end
    | _ => packetID (sess st)
    end.
Proof.
  unfold worker_register.
  destruct (heap st !! p) as [[pm|pid|w]|]; rewrite ?pubOut_put_packetID; try done.
  destruct (pm_qos pm); rewrite ?pubOut_put_packetID; try done.
  all: destruct (pm_packetID pm =? 0)%Z; try done.
  all: unfold newPacketID; by rewrite mutate_sess.
Qed.

(** X11: when the write of the dequeued message succeeds, the worker goes
    back to the top of its loop and the message stays out of the queue; a
    PUBREL and a QoS>0 PUBLISH were registered with the outbound tracker
    before the write, under the packet identifier the connection sees, and
    a QoS 0 PUBLISH or another message was written without registration.
    The packet counter advances, by one, only for a QoS>0 PUBLISH that had
    no identifier, and no other object of the heap is touched. *)
Theorem write_success_registers (st : State) (p : loc) (m : Message) :
  heap st !! p = Some m ->
  let st' := snd (publishWorker_step true (WHold p) st) in
  fst (publishWorker_step true (WHold p) st) = WTop
  /\ messages (pub (sess st')) = messages (pub (sess st))
  /\ trace st' = trace st ++ [EvWriteMessage p (heap st' !! p)]
  /\ match m with
     | Publish pm =>
         match pm_qos pm with
         | QosAtMostOnce =>
             heap st' = heap st /\ ack_pubOut (sess st') = ack_pubOut (sess st)
             /\ packetID (sess st') = packetID (sess st)
         | _ =>
             let pid := assigned_id pm (sess st) in
             heap st' !! p = Some (Publish (SetPacketID pid pm))
             /\ (forall q, q <> p -> heap st' !! q = heap st !! q)
             /\ ack_pubOut (sess st') = ackQueue_put pid p (ack_pubOut (sess st))
             /\ is_Some (ack_pubOut (sess st') !! pid)
             /\ packetID (sess st') =
                if (pm_packetID pm =? 0)%Z then AddUint64 (packetID (sess st)) 1
                else packetID (sess st)
         end
     | PubRel pid =>
         heap st' = heap st
         /\ ack_pubOut (sess st') = ackQueue_put pid p (ack_pubOut (sess st))
         /\ is_Some (ack_pubOut (sess st') !! pid)
         /\ packetID (sess st') = packetID (sess st)
     | OtherMessage _ =>
         heap st' = heap st /\ ack_pubOut (sess st') = ack_pubOut (sess st)
         /\ packetID (sess st') = packetID (sess st)
     end.
Proof.
  intros Hm st'. subst st'. cbn [publishWorker_step fst snd].
  split; [done|].
  split; [cbn; by rewrite worker_register_pub|].
  split; [cbn; by rewrite worker_register_trace|].
  cbn [emit heap sess].
  pose proof (worker_register_packetID p st) as Hid. rewrite Hm in Hid.
  destruct m as [pm|pid|pid].
  - destruct (pm_qos pm) eqn:Hq.
    + unfold worker_register. rewrite Hm, Hq. done.
    + destruct (worker_register_publish p st pm Hm) as (H1 & H3 & H2); [congruence|].
      cbn zeta in *. rewrite H2. split; [done|]. split; [done|]. split; [done|].
      split; [apply ackQueue_put_registered | done].
    + destruct (worker_register_publish p st pm Hm) as (H1 & H3 & H2); [congruence|].
      cbn zeta in *. rewrite H2. split; [done|]. split; [done|]. split; [done|].
      split; [apply ackQueue_put_registered | done].
  - split; [|split; [|split; [|done]]].
    all: unfold worker_register, pubOut_put, put; rewrite Hm; cbn; try done.
    apply ackQueue_put_registered.
  - unfold worker_register. rewrite Hm. done.
Qed.

(** X12: with an empty queue and the quit channel not closed, the worker
    changes nothing however many steps it takes, and from its second step
    on it is parked in [cond.Wait()]. *)
Theorem idle_worker_waits (oks : list bool) : forall (pc : wstate) (st : State),
  messages (pub (sess st)) = [] ->
  isDone (pub (sess st)) = false ->
  (pc = WTop \/ pc = WLock \/ pc = WWait) ->
  let sys := run (map ActWorker oks) (pc, st) in
  snd sys = st
  /\ (fst sys = WTop \/ fst sys = WLock \/ fst sys = WWait)
  /\ (2 <= length oks -> fst sys = WWait).
Proof.
  induction oks as [|ok oks IH]; intros pc st Hm Hd Hpc; cbn zeta.
  - cbn. split; [done|]. split; [done|]. lia.
  - cbn [map run foldl]. fold (run (map ActWorker oks)).
    assert (Hstep : sys_step (ActWorker ok) (pc, st)
                    = (match pc with WTop => WLock | _ => WWait end, st)).
    { destruct Hpc as [->|[->| ->]]; cbn; unfold worker_pop; rewrite ?Hd, ?Hm; done. }
    rewrite Hstep.
    destruct (IH (match pc with WTop => WLock | _ => WWait end) st Hm Hd) as (H1 & H2 & H3).
    { destruct Hpc as [->|[->| ->]]; auto. }
    cbn zeta in *. split; [done|]. split; [done|].
    intros Hlen. cbn in Hlen.
    destruct oks as [|ok2 oks]; [cbn in Hlen; lia|].
    destruct oks as [|ok3 oks].
    + destruct Hpc as [->|[->| ->]]; cbn; unfold worker_pop; rewrite ?Hd, ?Hm; done.
    + apply H3. cbn. lia.
Qed.

(** *** Allocation only grows *)

Lemma mutate_allocated q f st p :
  allocated (heap st) p = true -> allocated (heap (mutate q f st)) p = true.
Proof.
  unfold mutate, allocated. intros H.
  destruct (heap st !! q) as [[m| |]|] eqn:Hq; try done. cbn.
  destruct (decide (q = p)) as [->|Hne].
  - by rewrite lookup_insert_eq.
  - by rewrite lookup_insert_ne.
Qed.

Lemma worker_register_allocated q st p :
  allocated (heap st) p = true -> allocated (heap (worker_register q st)) p = true.
Proof.
  intros H. unfold worker_register.
  destruct (heap st !! q) as [[m| |]|]; rewrite ?pubOut_put_heap; try done.
  destruct (pm_qos m); rewrite ?pubOut_put_heap; try done.
  all: destruct (pm_packetID m =? 0)%Z; try done.
  all: unfold newPacketID; cbn; by apply mutate_allocated.
Qed.

Lemma worker_rollback_allocated q st p :
  allocated (heap st) p = true -> allocated (heap (worker_rollback q st)) p = true.
Proof.
  intros H. unfold worker_rollback.
  destruct (heap st !! q) as [[m| |]|]; rewrite ?pubOut_ack_heap; try done.
  destruct (pm_qos m); rewrite ?pubOut_ack_heap; try done.
  all: by apply mutate_allocated.
Qed.

Lemma publishWorker_step_allocated ok pc st p :
  allocated (heap st) p = true ->
  allocated (heap (snd (publishWorker_step ok pc st))) p = true.
Proof.
  intros H. destruct pc; cbn [publishWorker_step]; unfold wg_Done; cbn [snd]; try done.
  - unfold worker_pop. repeat break_match; done.
  - break_match; [done|]. unfold worker_pop. repeat break_match; done.
  - destruct ok; cbn [snd].
    + cbn. by apply worker_register_allocated.
    + cbn. apply worker_rollback_allocated. cbn. by apply worker_register_allocated.
  - break_match; done.
Qed.

Lemma sys_step_allocated a sys p :
  allocated (heap (snd sys)) p = true ->
  allocated (heap (snd (sys_step a sys))) p = true.
Proof.
  destruct sys as [pc st]. cbn [snd]. intros H.
  destruct a; cbn [sys_step snd].
  - by apply publishWorker_step_allocated.
  - unfold onSubscribedPublish, alloc.
    destruct (heap st !! msg) as [[pm| |]|]; try done.
    assert (G : allocated (<[next_loc st :=
                 Publish (SetDup false (SetRetain false (SetPayload (pm_payload pm)
                   (SetTopic (pm_topic pm) (SetQoS (pm_qos pm) NewPublishMessage)))))]>
                 (heap st)) p = true).
    { unfold allocated in *. destruct (decide (next_loc st = p)) as [->|Hne].
      - by rewrite lookup_insert_eq.
      - by rewrite lookup_insert_ne. }
    repeat break_match; exact G.
  - destruct msgs as [ms|]; cbn [restore snd]; [|done].
    destruct (restore_in_heap (In_Messages ms) (restore_out (Out_Messages ms) st)) as [-> _].
    destruct (restore_out_heap (Out_Messages ms) st) as [-> _]. done.
  - unfold publishToTopic.
    destruct (heap st !! msg) as [[pm| |]|]; try done.
    cbn [snd]. unfold log_if.
    assert (G : forall s', allocated (heap s') p = true ->
              allocated (heap match publish_err with
                     | Some _ => emit (EvLogError "Error retrieving subscribers list")
                          (emit (EvTopicsPublish msg (heap (mutate msg (SetRetain false) s') !! msg))
                             (mutate msg (SetRetain false) s'))
                     | None => emit (EvTopicsPublish msg (heap (mutate msg (SetRetain false) s') !! msg))
                             (mutate msg (SetRetain false) s')
                     end) p = true).
    { intros s' Hs'. destruct publish_err; cbn; by apply mutate_allocated. }
    apply G.
    destruct (pm_retain pm); [|done].
    destruct retain_err, (pm_qos pm); try done.
    all: cbn; unfold allocated in *.
    all: match goal with |- context [<[?k:=_]> _ !! ?x] =>
           destruct (decide (k = x)) as [->|Hne];
           [by rewrite lookup_insert_eq | by rewrite lookup_insert_ne] end.
  - by rewrite addTopic_heap.
  - by rewrite removeTopic_heap.
  - unfold stop, stop_after_wait, CompareAndSwapInt64. repeat break_match; done.
  - unfold close_quit. by break_match.
Qed.

(** One turn of the loop on a non-empty queue, the write succeeding. *)
Lemma worker_cycle_sends p rest st :
  isDone (pub (sess st)) = false ->
  messages (pub (sess st)) = p :: rest ->
  allocated (heap st) p = true ->
  let sys := run worker_cycle (WTop, st) in
  fst sys = WTop
  /\ messages (pub (sess (snd sys))) = rest
  /\ writes (trace (snd sys)) = writes (trace st) ++ [p]
  /\ quit (pub (sess (snd sys))) = quit (pub (sess st))
  /\ (forall q, allocated (heap st) q = true -> allocated (heap (snd sys)) q = true).
Proof.
  intros Hd Hm Hp. cbn zeta. unfold worker_cycle, run. cbn [foldl].
  unfold allocated in Hp. destruct (heap st !! p) as [m|] eqn:Hh; [|done].
  assert (E1 : sys_step (ActWorker true) (WTop, st) = (WLock, st)).
  { cbn. by rewrite Hd. }
  assert (E2 : sys_step (ActWorker true) (WLock, st)
               = (WHold p, with_pub (set_messages rest) st)).
  { cbn. unfold worker_pop. by rewrite Hm, Hh. }
  rewrite E1, E2. cbn [sys_step publishWorker_step fst snd].
  split; [done|].
  split; [cbn; by rewrite worker_register_pub|].
  split; [cbn; by rewrite writes_app, worker_register_trace|].
  split; [cbn; by rewrite worker_register_pub|].
  intros q Hq. cbn. by apply worker_register_allocated.
Qed.

Lemma run_app acts1 acts2 sys : run (acts1 ++ acts2) sys = run acts2 (run acts1 sys).
Proof. unfold run. by rewrite foldl_app. Qed.

(** X13: left alone with a queue of non-nil messages, the quit channel not
    closed and every write succeeding, the worker hands the whole queue to
    the connection in queue order, three steps a message, and ends at the
    top of its loop with the queue empty. *)
Theorem worker_transmits_queue (l : list loc) : forall (st : State),
  isDone (pub (sess st)) = false ->
  messages (pub (sess st)) = l ->
  forallb (allocated (heap st)) l = true ->
  let sys := run (worker_cycles (length l)) (WTop, st) in
  fst sys = WTop
  /\ messages (pub (sess (snd sys))) = []
  /\ writes (trace (snd sys)) = writes (trace st) ++ l.
Proof.
  induction l as [|p rest IH]; intros st Hd Hm Hall; cbn zeta.
  - cbn. by rewrite app_nil_r.
  - cbn [length worker_cycles]. rewrite run_app.
    cbn [forallb] in Hall. apply andb_true_iff in Hall as [Hp Hrest].
    destruct (worker_cycle_sends p rest st Hd Hm Hp) as (H1 & H2 & H3 & H4 & H5).
    cbn zeta in *.
    destruct (run worker_cycle (WTop, st)) as [pc1 st1] eqn:E. cbn [fst snd] in *.
    subst pc1.
    destruct (IH st1) as (G1 & G2 & G3).
    + unfold isDone in *. by rewrite H4.
    + exact H2.
    + rewrite forallb_forall in *. auto.
    + cbn zeta in *. split; [done|]. split; [done|].
      rewrite G3, H3, <- app_assoc. done.
Qed.

Lemma sys_step_quit_closed a sys :
  quit (pub (sess (snd sys))) = ChanClosed ->
  quit (pub (sess (snd (sys_step a sys)))) = ChanClosed.
Proof.
  destruct sys as [pc st]. cbn [snd]. intros H.
  destruct a; cbn [sys_step snd].
  - by rewrite publishWorker_step_quit.
  - by rewrite onSubscribedPublish_quit.
  - destruct msgs as [ms|]; cbn [restore snd]; [|done].
    by rewrite restore_in_pub, restore_out_quit.
  - by rewrite publishToTopic_pub.
  - by rewrite addTopic_pub.
  - by rewrite removeTopic_pub.
  - by rewrite stop_pub.
  - unfold close_quit. by rewrite H.
Qed.

Lemma sys_step_budget a pc st :
  quit (pub (sess st)) = ChanClosed ->
  exists W,
    writes (trace (snd (sys_step a (pc, st)))) = writes (trace st) ++ W
    /\ length W + write_budget (fst (sys_step a (pc, st))) <= write_budget pc.
Proof.
  intros Hc.
  destruct a as [ok| | | | | | |].
  2-8: match goal with |- context [sys_step ?a _] =>
         destruct (env_step_fifo a pc st ltac:(discriminate)) as (E1 & E2 & E3) end;
       exists []; rewrite E1, E2, app_nil_r; cbn; split; [done|lia].
  cbn [sys_step].
  pose proof (worker_step_fifo ok pc st) as Hs. cbn zeta in Hs.
  destruct pc; cbn [write_budget].
  - destruct Hs as [Hs1 _]. exists []. rewrite Hs1, app_nil_r. split; [done|].
    cbn. unfold wg_Done. break_match; cbn; lia.
  - destruct Hs as [Hs1 _]. exists []. rewrite Hs1, app_nil_r. split; [done|].
    cbn. unfold isDone. rewrite Hc. cbn. lia.
  - destruct Hs as [Hs1 _]. exists []. rewrite Hs1, app_nil_r. split; [done|].
    cbn. unfold worker_pop. repeat break_match; cbn; lia.
  - destruct Hs as [Hs1 _]. exists []. rewrite Hs1, app_nil_r. split; [done|].
    cbn. unfold isDone. rewrite Hc. cbn. lia.
  - destruct Hs as [Hs1 Hs2]. exists [p]. split; [done|].
    destruct ok; destruct Hs2 as [-> _]; cbn; lia.
  - exists []. rewrite app_nil_r.
    destruct (sys_step_exited (ActWorker ok) (WExit, st) eq_refl) as [_ Hw].
    cbn [sys_step snd] in Hw. split; [done|].
    cbn. unfold wg_Done. break_match; cbn; lia.
  - exists []. rewrite app_nil_r. cbn. split; [done|lia].
  - exists []. rewrite app_nil_r. cbn. split; [done|lia].
  - exists []. rewrite app_nil_r. cbn. split; [done|lia].
  - exists []. rewrite app_nil_r.
    destruct (sys_step_exited (ActWorker ok) (WRecover, st) eq_refl) as [_ Hw].
    cbn [sys_step snd] in Hw. split; [done|].
    cbn. unfold wg_Done. break_match; cbn; lia.
Qed.

(** X14: once the quit channel is closed it stays closed, and the worker
    writes at most one more message, whatever the other goroutines do: one
    if it was already past the check at the top of its loop, none
    otherwise. *)
Theorem closed_quit_bounds_writes (acts : list action) : forall (pc : wstate) (st : State),
  quit (pub (sess st)) = ChanClosed ->
  exists W,
    writes (trace (snd (run acts (pc, st)))) = writes (trace st) ++ W
    /\ length W + write_budget (fst (run acts (pc, st))) <= write_budget pc
    /\ length W <= 1
    /\ quit (pub (sess (snd (run acts (pc, st))))) = ChanClosed.
Proof.
  induction acts as [|a acts IH]; intros pc st Hc.
  - exists []. cbn. rewrite app_nil_r. repeat split; try done; lia.
  - cbn [run foldl]. fold (run acts (sys_step a (pc, st))).
    destruct (sys_step_budget a pc st Hc) as (W1 & HW1 & Hb1).
    pose proof (sys_step_quit_closed a (pc, st) Hc) as Hc1.
    destruct (sys_step a (pc, st)) as [pc1 st1]. cbn [fst snd] in *.
    destruct (IH pc1 st1 Hc1) as (W2 & HW2 & Hb2 & _ & Hc2).
    exists (W1 ++ W2). rewrite HW2, HW1, <- app_assoc, length_app.
    split; [done|]. split; [lia|]. split; [|done].
    assert (write_budget pc <= 1) by (destruct pc; cbn; lia). lia.
Qed.

Lemma drain_incl h l p : In p (drain h l) -> In p l.
Proof. rewrite drain_filter, filter_In. tauto. Qed.

Lemma forallb_allocated_mono (h h' : gmap loc Message) (l : list loc) :
  (forall p, allocated h p = true -> allocated h' p = true) ->
  forallb (allocated h) l = true -> forallb (allocated h') l = true.
Proof.
  intros Hm. rewrite !forallb_forall. auto.
Qed.

Lemma restores_allocated_mono (h h' : gmap loc Message) (acts : list action) :
  (forall p, allocated h p = true -> allocated h' p = true) ->
  forallb (restores_allocated h) acts = true ->
  forallb (restores_allocated h') acts = true.
Proof.
  intros Hm. rewrite !forallb_forall. intros H a Ha. specialize (H a Ha).
  destruct a; try done. destruct msgs as [ms|]; [|done].
  cbn in *. by apply (forallb_allocated_mono h).
Qed.

Lemma worker_pop_queue_allocated st :
  forallb (allocated (heap st)) (messages (pub (sess st))) = true ->
  fst (worker_pop st) <> WDeadlock
  /\ heap (snd (worker_pop st)) = heap st
  /\ held (fst (worker_pop st)) ++ messages (pub (sess (snd (worker_pop st))))
     = messages (pub (sess st)).
Proof.
  intros Hq. unfold worker_pop.
  destruct (messages (pub (sess st))) as [|p rest] eqn:Hm; [cbn; by rewrite Hm|].
  cbn [forallb] in Hq. apply andb_true_iff in Hq as [Hp _].
  unfold allocated in Hp. destruct (heap st !! p); [|done]. done.
Qed.

Lemma worker_step_queue_allocated ok pc st :
  pc <> WDeadlock ->
  forallb (allocated (heap st)) (held pc ++ messages (pub (sess st))) = true ->
  let pc' := fst (publishWorker_step ok pc st) in
  let st' := snd (publishWorker_step ok pc st) in
  pc' <> WDeadlock
  /\ forallb (allocated (heap st')) (held pc' ++ messages (pub (sess st'))) = true.
Proof.
  intros Hpc Hq. cbn zeta.
  assert (Hmono : forall p, allocated (heap st) p = true ->
            allocated (heap (snd (publishWorker_step ok pc st))) p = true).
  { intros p. apply publishWorker_step_allocated. }
  destruct pc; cbn [publishWorker_step held app] in *; unfold wg_Done in *;
    cbn [fst snd] in *; try done.
  - by break_match.
  - by break_match.
  - destruct (worker_pop_queue_allocated st Hq) as (H1 & H2 & H3).
    rewrite H2, H3. done.
  - destruct (isDone (pub (sess st))); [done|].
    destruct (worker_pop_queue_allocated st Hq) as (H1 & H2 & H3).
    rewrite H2, H3. done.
  - apply andb_true_iff in Hq as [Hp Hrest].
    destruct ok; cbn [fst snd held app] in *.
    + split; [done|]. cbn. rewrite worker_register_pub.
      by apply (forallb_allocated_mono (heap st)).
    + split; [done|]. cbn. rewrite worker_rollback_pub. cbn. rewrite worker_register_pub.
      unfold PushBack. rewrite forallb_app. apply andb_true_iff. split.
      * by apply (forallb_allocated_mono (heap st)).
      * cbn. rewrite andb_true_r. by apply Hmono.
  - split; [by break_match|]. cbn.
    assert (G : forallb (allocated (heap st)) (drain (heap st) (messages (pub (sess st)))) = true).
    { rewrite forallb_forall in *. intros p Hin. apply Hq. by apply (drain_incl (heap st)). }
    by break_match.
  - assert (G : forallb (allocated (heap st)) (drain (heap st) (messages (pub (sess st)))) = true).
    { rewrite forallb_forall in *. intros p Hin. apply Hq. by apply (drain_incl (heap st)). }
    by break_match.
Qed.

Lemma sys_step_queue_allocated a pc st :
  pc <> WDeadlock ->
  forallb (allocated (heap st)) (held pc ++ messages (pub (sess st))) = true ->
  restores_allocated (heap st) a = true ->
  let pc' := fst (sys_step a (pc, st)) in
  let st' := snd (sys_step a (pc, st)) in
  pc' <> WDeadlock
  /\ forallb (allocated (heap st')) (held pc' ++ messages (pub (sess st'))) = true.
Proof.
  intros Hpc Hq Hr. cbn zeta.
  assert (Hmono : forall p, allocated (heap st) p = true ->
            allocated (heap (snd (sys_step a (pc, st)))) p = true).
  { intros p. apply (sys_step_allocated a (pc, st)). }
  destruct a as [ok| | | | | | |];
    [by apply worker_step_queue_allocated|..].
  all: match goal with |- context [sys_step ?a _] =>
         destruct (env_step_fifo a pc st ltac:(discriminate)) as (E1 & E2 & E3) end;
       rewrite E1, E3; (split; [done|]);
       rewrite app_assoc, forallb_app; apply andb_true_iff; split;
       [ by apply (forallb_allocated_mono (heap st)) | ].
  - cbn [pushes sys_step snd].
    unfold onSubscribedPublish, alloc.
    destruct (heap st !! msg) as [[pm| |]|]; try done.
    destruct (pm_qos pm); cbn; try (destruct (quit (pub (sess st))); cbn);
      unfold allocated; rewrite ?lookup_insert_eq; done.
  - cbn [pushes restores_allocated] in *. destruct msgs as [ms|]; [|done].
    by apply (forallb_allocated_mono (heap st)).
  - done.
  - done.
  - done.
  - done.
  - done.
Qed.

(** X15: when the queue holds no nil message and no [restore] brings one,
    no run of the session and its worker puts one there, and the worker
    never reaches the type assertion that would leave it stuck on its own
    lock; objects, once allocated, stay allocated. *)
Theorem worker_never_deadlocks (acts : list action) : forall (pc : wstate) (st : State),
  pc <> WDeadlock ->
  forallb (allocated (heap st)) (held pc ++ messages (pub (sess st))) = true ->
  forallb (restores_allocated (heap st)) acts = true ->
  let pc' := fst (run acts (pc, st)) in
  let st' := snd (run acts (pc, st)) in
  pc' <> WDeadlock
  /\ forallb (allocated (heap st')) (held pc' ++ messages (pub (sess st'))) = true
  /\ (forall p, allocated (heap st) p = true -> allocated (heap st') p = true).
Proof.
  induction acts as [|a acts IH]; intros pc st Hpc Hq Hr; cbn zeta; [done|].
  cbn [run foldl]. fold (run acts (sys_step a (pc, st))).
  cbn [forallb] in Hr. apply andb_true_iff in Hr as [Ha Hrest].
  destruct (sys_step_queue_allocated a pc st Hpc Hq Ha) as [H1 H2]. cbn zeta in H1, H2.
  assert (Hmono : forall p, allocated (heap st) p = true ->
            allocated (heap (snd (sys_step a (pc, st)))) p = true).
  { intros p. apply (sys_step_allocated a (pc, st)). }
  destruct (sys_step a (pc, st)) as [pc1 st1] eqn:E. cbn [fst snd] in *.
  destruct (IH pc1 st1 H1 H2) as (H3 & H4 & H5).
  { by apply (restores_allocated_mono (heap st)). }
  cbn zeta in *. split; [done|]. split; [done|]. auto.
Qed.





Lemma run_cons a acts sys : run (a :: acts) sys = run acts (sys_step a sys).
Proof. reflexivity. Qed.


(** X17: the worker that [start] has spawned, finding the quit channel
    closed at the top of its loop, finishes in two steps without writing:
    the queue keeps everything but its QoS 0 PUBLISH messages, and
    [publisher.stopped] is back at its value from before [start]. *)
Theorem started_worker_shuts_down (msg : ConnectMessage) (closer : nat) (o1 o2 : bool)
    (st : State) :
  running (sess st) = 0%Z ->
  wgSessionStopped (sess st) = 0%Z ->
  started (pub (sess st)) = 0%Z ->
  (0 <= wgSessionStarted (sess st))%Z ->
  (0 <= stopped (pub (sess st)))%Z ->
  let st1 := snd (start msg closer None st) in
  let sys := run [ActCloseQuit; ActWorker o1; ActWorker o2] (WTop, st1) in
  fst sys = WDone
  /\ quit (pub (sess (snd sys))) = ChanClosed
  /\ (started (pub (sess (snd sys))), stopped (pub (sess (snd sys))))
     = (0%Z, stopped (pub (sess st)))
  /\ writes (trace (snd sys)) = writes (trace st)
  /\ messages (pub (sess (snd sys))) =
     List.filter (fun p => negb (is_qos0_publish (heap st) p)) (messages (pub (sess st))).
Proof.
  intros Hr Hs Hst Hwg Hsp.
  destruct (start_ok_fields msg closer st Hr Hs Hst Hwg)
    as (_ & _ & _ & _ & _ & Hw & Hh & Hf).
  cbn zeta in *.
  generalize dependent (snd (start msg closer None st)). intros st1 Hw Hh Hf.
  injection Hf as F1 F2 F3 F4 F5.
  unfold run. cbn [foldl sys_step].
  unfold close_quit. rewrite F2.
  cbn [publishWorker_step]. unfold isDone.
  cbn [with_pub with_sess sess pub set_pub quit set_quit recv_ready].
  cbn [publishWorker_step]. unfold wg_Done. cbn -[writes List.filter].
  rewrite F5, F4, F3, Hh, Hw, drain_filter.
  replace (stopped (pub (sess st)) + 1 - 1)%Z with (stopped (pub (sess st))) by lia.
  destruct (Z.ltb_spec (stopped (pub (sess st))) 0); [lia|]. done.
Qed.

(** X18: a QoS>0 message fanned out to a session with an idle worker is
    delivered in one turn of the loop: the connection sees a copy with the
    publisher's QoS, topic and payload, retain and dup cleared and the next
    packet identifier of the counter; the copy is registered with the
    outbound tracker under that identifier; the queue is empty again and the
    publisher's message is unchanged. *)
Theorem qos_message_delivered (st : State) (msg : loc) (pm : PublishMessage) :
  heap st !! msg = Some (Publish pm) ->
  pm_qos pm <> QosAtMostOnce ->
  heap st !! next_loc st = None ->
  messages (pub (sess st)) = [] ->
  isDone (pub (sess st)) = false ->
  let n := next_loc st in
  let i := fst (newPacketID (sess st)) in
  let sent := Publish (mkPublish (pm_qos pm) (pm_topic pm) (pm_payload pm) false false i) in
  let sys := run (ActSubscribedPublish msg :: worker_cycle) (WTop, st) in
  fst sys = WTop
  /\ messages (pub (sess (snd sys))) = []
  /\ trace (snd sys) = trace st ++ [EvWriteMessage n (Some sent)]
  /\ heap (snd sys) !! n = Some sent
  /\ heap (snd sys) !! msg = Some (Publish pm)
  /\ ack_pubOut (sess (snd sys)) = ackQueue_put i n (ack_pubOut (sess st))
  /\ packetID (sess (snd sys)) = AddUint64 (packetID (sess st)) 1.
Proof.
  intros Hm Hq Hfree Hempty Hd n i sent sys.
  assert (Hne : msg <> n) by (subst n; congruence).
  subst sys. unfold worker_cycle. rewrite !run_cons. cbn [run foldl].
  set (copy := mkPublish (pm_qos pm) (pm_topic pm) (pm_payload pm) false false 0).
  set (st1 := mkState (set_pub (set_messages [n] (pub (sess st))) (sess st))
                (<[n := Publish copy]> (heap st)) (S n) (trace st)).
  assert (E1 : sys_step (ActSubscribedPublish msg) (WTop, st) = (WTop, st1)).
  { cbn [sys_step]. unfold onSubscribedPublish. rewrite Hm.
    subst st1 n copy. unfold alloc, PushBack.
    destruct (pm_qos pm); [done|..]; unfold with_pub, with_sess; cbn; rewrite Hempty;
      reflexivity. }
  rewrite E1.
  assert (E2 : sys_step (ActWorker true) (WTop, st1) = (WLock, st1)).
  { cbn. unfold isDone in *. cbn. by rewrite Hd. }
  rewrite E2.
  assert (E3 : sys_step (ActWorker true) (WLock, st1)
               = (WHold n, with_pub (set_messages []) st1)).
  { cbn. unfold worker_pop. cbn. by rewrite lookup_insert_eq. }
  rewrite E3. cbn [sys_step].
  set (st2 := with_pub (set_messages []) st1).
  assert (Hn : heap st2 !! n = Some (Publish copy)) by (cbn; by rewrite lookup_insert_eq).
  destruct (worker_register_publish n st2 copy Hn Hq) as (R1 & R2 & R3).
  cbn zeta in R1, R2, R3.
  assert (Hid : assigned_id copy (sess st2) = i) by reflexivity.
  rewrite Hid in R1, R3.
  cbn [publishWorker_step fst snd].
  split; [done|].
  split; [cbn; by rewrite worker_register_pub|].
  split; [cbn; by rewrite worker_register_trace, R1|].
  split; [exact R1|].
  split; [cbn; rewrite R2 by done; cbn; by rewrite lookup_insert_ne|].
  split; [exact R3|].
  unfold worker_register. rewrite Hn. cbn [pm_qos copy pm_packetID].
  destruct (pm_qos pm); [done|..]; unfold pubOut_put, put, mutate, newPacketID; cbn;
    rewrite lookup_insert_eq; cbn; rewrite lookup_insert_eq; reflexivity.
Qed.


(** ** The properties at work on the concrete sessions *)

Lemma heap_wf_newSession c errs : heap_wf (newSession c errs).
Proof.
  intros p _. unfold newSession.
  destruct (newSession_fold errs (map_to_list (subscriptions c))
              (mkState (zero_session c) ∅ 0 [])) as (H & _).
  cbn zeta in H. by rewrite H.
Qed.

Lemma heap_wf_alloc m st : heap_wf st -> heap_wf (snd (alloc m st)).
Proof.
  intros H p Hp. cbn in *. rewrite lookup_insert_ne by lia. apply H. lia.
Qed.

Lemma heap_wf_fresh0 q : heap_wf (fresh0 q).
Proof. apply heap_wf_alloc, heap_wf_newSession. Qed.

Lemma restore_appends_witness :
  forallb (allocated (heap mixed0)) (In_Messages stored0) = true
  /\ fst (restore (Some stored0) mixed0) = Returns None
  /\ messages (pub (sess (snd (restore (Some stored0) mixed0)))) = [0; 1; 2; 0]%nat
  /\ is_Some (ack_pubIn (sess (snd (restore (Some stored0) mixed0))) !! 7%Z).
Proof.
  assert (H : forallb (allocated (heap mixed0)) (In_Messages stored0) = true)
    by (vm_compute; reflexivity).
  pose proof (restore_appends stored0 mixed0 H) as (H1 & _ & H2 & _ & _ & _ & _ & H3).
  split; [exact H|]. split; [exact H1|].
  split; [vm_compute in H2; vm_compute; exact H2|].
  apply (H3 2%nat (PubRel 7)); [left; reflexivity | vm_compute; reflexivity].
Defined.

Lemma newPacketIDs_distinct_witness :
  fst (newPacketIDs 3 (zero_session cfg0)) !! 0%nat = Some 1%Z
  /\ fst (newPacketIDs 3 (zero_session cfg0)) !! 2%nat = Some 3%Z
  /\ (0 <= 1 < 65536)%Z /\ (0 <= 3 < 65536)%Z /\ 1%Z <> 3%Z.
Proof.
  assert (H1 : fst (newPacketIDs 3 (zero_session cfg0)) !! 0%nat = Some 1%Z)
    by (vm_compute; reflexivity).
  assert (H2 : fst (newPacketIDs 3 (zero_session cfg0)) !! 2%nat = Some 3%Z)
    by (vm_compute; reflexivity).
  split; [exact H1|]. split; [exact H2|].
  apply (newPacketIDs_distinct 3 (zero_session cfg0) 0 2 1 3 H1 H2); lia.
Defined.

Lemma start_success_witness :
  let st := fresh0 QosAtLeastOnce in
  running (sess st) = 0%Z
  /\ fst (start will_connect0 1 None st) = (Returns None, Some WTop)
  /\ running (sess (snd (start will_connect0 1 None st))) = 1%Z
  /\ will (sess (snd (start will_connect0 1 None st)))
     = Some (mkPublish QosAtLeastOnce "last/will" [Byte.x62; Byte.x79; Byte.x65] true false 0)
  /\ trace (snd (start will_connect0 1 None st)) = trace st ++ [EvNewConnection 1 30; EvConnStart].
Proof.
  intros st.
  assert (Hr : running (sess st) = 0%Z) by (vm_compute; reflexivity).
  assert (Hs : wgSessionStopped (sess st) = 0%Z) by (vm_compute; reflexivity).
  assert (Ht : started (pub (sess st)) = 0%Z) by (vm_compute; reflexivity).
  assert (Hw : (0 <= wgSessionStarted (sess st))%Z) by (vm_compute; discriminate).
  pose proof (start_success will_connect0 1 st Hr Hs Ht Hw)
    as (H1 & H2 & _ & _ & _ & H3 & _ & _ & _ & _ & _ & _ & H4).
  split; [exact Hr|]. split; [exact H1|]. split; [exact H2|].
  split; [vm_compute in H3; vm_compute; exact H3|].
  vm_compute in H4. vm_compute. exact H4.
Defined.

Lemma start_failure_rolls_back_witness :
  let st := fresh0 QosAtLeastOnce in
  let st' := snd (start connect0 1 (Some "refused") st) in
  running (sess st) = 0%Z
  /\ fst (start connect0 1 (Some "refused") st) = (Returns (Some "refused"), None)
  /\ quit (pub (sess st')) = ChanClosed
  /\ wgSessionStopped (sess st') = 1%Z
  /\ start connect0 2 None st' = (Blocks, None, st').
Proof.
  intros st st'.
  assert (Hr : running (sess st) = 0%Z) by (vm_compute; reflexivity).
  assert (Hs : wgSessionStopped (sess st) = 0%Z) by (vm_compute; reflexivity).
  assert (Hw : (0 <= wgSessionStarted (sess st))%Z) by (vm_compute; discriminate).
  pose proof (start_failure_rolls_back connect0 1 "refused" st Hr Hs Hw)
    as (H1 & _ & H2 & _ & _ & H3 & _ & _ & _ & H4).
  split; [exact Hr|]. split; [exact H1|]. split; [exact H2|]. split; [exact H3|].
  apply H4.
Defined.

Lemma stop_closes_started_transport_witness :
  let st := fresh0 QosAtLeastOnce in
  let st1 := snd (start connect0 1 None st) in
  closed (sess st) = 0%Z
  /\ fst (stop (Some "broken pipe") st1) = Blocks
  /\ trace (snd (stop (Some "broken pipe") st1)) =
     trace st1 ++ [EvConnClose 1; EvLogError "Couldn't close connection"].
Proof.
  intros st st1.
  assert (Hr : running (sess st) = 0%Z) by (vm_compute; reflexivity).
  assert (Hs : wgSessionStopped (sess st) = 0%Z) by (vm_compute; reflexivity).
  assert (Ht : started (pub (sess st)) = 0%Z) by (vm_compute; reflexivity).
  assert (Hw : (0 <= wgSessionStarted (sess st))%Z) by (vm_compute; discriminate).
  assert (Hc : closed (sess st) = 0%Z) by (vm_compute; reflexivity).
  pose proof (stop_closes_started_transport connect0 1 (Some "broken pipe") st Hr Hs Ht Hw Hc)
    as (H1 & _ & H2 & _).
  split; [exact Hc|]. split; [exact H1|]. exact H2.
Defined.

Lemma stop_reports_current_topics_witness :
  let st := fresh0 QosAtLeastOnce in
  let st1 := snd (removeTopic "a/b" (snd (addTopic "c/d" QosExactlyOnce st))) in
  clean (sess st) = false
  /\ fst (stop None st1) = Returns None
  /\ onClose_calls (trace (snd (stop None st1))) =
     [("client-1", {[ "c/d" := QosExactlyOnce ]})].
Proof.
  intros st st1.
  assert (Hc : closed (sess st) = 0%Z) by (vm_compute; reflexivity).
  assert (Hs : wgSessionStopped (sess st) = 0%Z) by (vm_compute; reflexivity).
  assert (Hl : clean (sess st) = false) by (vm_compute; reflexivity).
  pose proof (stop_reports_current_topics "c/d" "a/b" QosExactlyOnce None st Hc Hs Hl)
    as (H1 & H2).
  split; [exact Hl|]. split; [exact H1|].
  subst st1. rewrite H2. vm_compute. reflexivity.
Defined.

Lemma onAckIn_retains_once_witness :
  let st := started0 QosAtMostOnce in
  let st1 := onAckIn 0 None None st in
  let st2 := onAckIn 0 None None st1 in
  heap st !! 0%nat = Some (Publish (hello QosAtMostOnce))
  /\ retain_calls (trace st1) = [0%nat]
  /\ retain_calls (trace st2) = [0%nat]
  /\ retained_list (sess st2) = [1%nat].
Proof.
  intros st st1 st2.
  assert (Hm : heap st !! 0%nat = Some (Publish (hello QosAtMostOnce)))
    by (vm_compute; reflexivity).
  assert (Hf : heap st !! next_loc st = None) by (vm_compute; reflexivity).
  pose proof (onAckIn_retains_once st 0%nat _ None None None None Hm Hf)
    as (_ & H1 & H2 & H3 & _).
  fold st1 st2 in H1, H2, H3.
  split; [exact Hm|].
  assert (E1 : retain_calls (trace st1) = [0%nat])
    by (rewrite H1; vm_compute; reflexivity).
  split; [exact E1|]. split; [by rewrite H2|].
  rewrite H3. vm_compute. reflexivity.
Defined.

Lemma onSubscribedPublish_fans_out_witness :
  let st := fresh0 QosAtLeastOnce in
  let st2 := snd (onSubscribedPublish 0 (snd (onSubscribedPublish 0 st))) in
  heap st !! 0%nat = Some (Publish (hello QosAtLeastOnce))
  /\ heap st2 !! 0%nat = Some (Publish (hello QosAtLeastOnce))
  /\ heap st2 !! 1%nat = heap st2 !! 2%nat
  /\ messages (pub (sess st2)) = [1; 2]%nat.
Proof.
  intros st st2.
  assert (Hm : heap st !! 0%nat = Some (Publish (hello QosAtLeastOnce)))
    by (vm_compute; reflexivity).
  pose proof (onSubscribedPublish_fans_out st 0%nat _ Hm (heap_wf_fresh0 _))
    as (H1 & H2 & H3 & _ & _ & _ & _ & H4).
  split; [exact Hm|]. split; [exact H1|].
  split; [etransitivity; [exact H2 | symmetry; exact H3]|].
  vm_compute in H4. vm_compute. exact H4.
Defined.

Lemma write_success_registers_witness :
  let st' := snd (publishWorker_step true (WHold 0) mixed0) in
  heap mixed0 !! 0%nat = Some (Publish (hello QosAtLeastOnce))
  /\ fst (publishWorker_step true (WHold 0) mixed0) = WTop
  /\ heap st' !! 0%nat =
     Some (Publish (mkPublish QosAtLeastOnce "a/b" [Byte.x68; Byte.x69] true true 1))
  /\ ack_pubOut (sess st') !! 1%Z = Some 0%nat.
Proof.
  intros st'.
  assert (Hm : heap mixed0 !! 0%nat = Some (Publish (hello QosAtLeastOnce)))
    by (vm_compute; reflexivity).
  pose proof (write_success_registers mixed0 0%nat _ Hm) as (H1 & _ & _ & H2).
  cbn [hello pm_qos] in H2. cbn zeta in H2. destruct H2 as (H2 & _ & H3 & _).
  split; [exact Hm|]. split; [exact H1|].
  split; [vm_compute in H2; vm_compute; exact H2|].
  subst st'. rewrite H3. vm_compute. reflexivity.
Defined.

Lemma idle_worker_waits_witness :
  let st := started0 QosAtLeastOnce in
  messages (pub (sess st)) = []
  /\ isDone (pub (sess st)) = false
  /\ run (map ActWorker [true; false; true]) (WTop, st) = (WWait, st).
Proof.
  intros st.
  assert (Hm : messages (pub (sess st)) = []) by (vm_compute; reflexivity).
  assert (Hd : isDone (pub (sess st)) = false) by (vm_compute; reflexivity).
  pose proof (idle_worker_waits [true; false; true] WTop st Hm Hd (or_introl eq_refl))
    as (H1 & _ & H2).
  split; [exact Hm|]. split; [exact Hd|].
  apply injective_projections; [apply H2; cbn; lia | exact H1].
Defined.

Lemma worker_transmits_queue_witness :
  isDone (pub (sess mixed0)) = false
  /\ messages (pub (sess mixed0)) = [0; 1; 2]%nat
  /\ fst (run (worker_cycles 3) (WTop, mixed0)) = WTop
  /\ messages (pub (sess (snd (run (worker_cycles 3) (WTop, mixed0))))) = []
  /\ writes (trace (snd (run (worker_cycles 3) (WTop, mixed0)))) = [0; 1; 2]%nat.
Proof.
  assert (Hd : isDone (pub (sess mixed0)) = false) by (vm_compute; reflexivity).
  assert (Hm : messages (pub (sess mixed0)) = [0; 1; 2]%nat) by (vm_compute; reflexivity).
  assert (Ha : forallb (allocated (heap mixed0)) [0; 1; 2]%nat = true)
    by (vm_compute; reflexivity).
  pose proof (worker_transmits_queue [0; 1; 2]%nat mixed0 Hd Hm Ha) as (H1 & H2 & H3).
  split; [exact Hd|]. split; [exact Hm|]. split; [exact H1|]. split; [exact H2|].
  etransitivity; [exact H3 | vm_compute; reflexivity].
Defined.

Lemma closed_quit_bounds_writes_witness :
  let st := close_quit mixed0 in
  quit (pub (sess st)) = ChanClosed
  /\ writes (trace (snd (run (worker_cycles 2) (WLock, st)))) = writes (trace st) ++ [0%nat]
  /\ exists W,
       writes (trace (snd (run (worker_cycles 2) (WLock, st)))) = writes (trace st) ++ W
       /\ length W <= 1.
Proof.
  intros st.
  assert (Hc : quit (pub (sess st)) = ChanClosed) by (vm_compute; reflexivity).
  split; [exact Hc|]. split; [vm_compute; reflexivity|].
  destruct (closed_quit_bounds_writes (worker_cycles 2) WLock st Hc) as (W & H1 & _ & H2 & _).
  exists W. split; [exact H1 | exact H2].
Defined.

Lemma worker_never_deadlocks_witness :
  forallb (allocated (heap mixed0)) (held WTop ++ messages (pub (sess mixed0))) = true
  /\ forallb (restores_allocated (heap mixed0)) (ActRestore (Some stored0) :: burst0) = true
  /\ fst (run (ActRestore (Some stored0) :: burst0) (WTop, mixed0)) <> WDeadlock.
Proof.
  assert (H1 : forallb (allocated (heap mixed0)) (held WTop ++ messages (pub (sess mixed0)))
               = true) by (vm_compute; reflexivity).
  assert (H2 : forallb (restores_allocated (heap mixed0))
                 (ActRestore (Some stored0) :: burst0) = true) by (vm_compute; reflexivity).
  assert (H0 : WTop <> WDeadlock) by discriminate.
  pose proof (worker_never_deadlocks _ WTop mixed0 H0 H1 H2) as (H3 & _).
  split; [exact H1|]. split; [exact H2|]. exact H3.
Defined.

Lemma started_worker_shuts_down_witness :
  let st := fresh0 QosAtLeastOnce in
  let sys := run [ActCloseQuit; ActWorker true; ActWorker true]
               (WTop, snd (start connect0 1 None st)) in
  (0 <= stopped (pub (sess st)))%Z
  /\ fst sys = WDone
  /\ quit (pub (sess (snd sys))) = ChanClosed
  /\ stopped (pub (sess (snd sys))) = 0%Z.
Proof.
  intros st sys.
  assert (Hr : running (sess st) = 0%Z) by (vm_compute; reflexivity).
  assert (Hs : wgSessionStopped (sess st) = 0%Z) by (vm_compute; reflexivity).
  assert (Ht : started (pub (sess st)) = 0%Z) by (vm_compute; reflexivity).
  assert (Hw : (0 <= wgSessionStarted (sess st))%Z) by (vm_compute; discriminate).
  assert (Hp : (0 <= stopped (pub (sess st)))%Z) by (vm_compute; discriminate).
  pose proof (started_worker_shuts_down connect0 1 true true st Hr Hs Ht Hw Hp)
    as (H1 & H2 & H3 & _).
  split; [exact Hp|]. split; [exact H1|]. split; [exact H2|].
  pose proof (f_equal snd H3) as H4. vm_compute in H4. vm_compute. exact H4.
Defined.

Lemma qos_message_delivered_witness :
  let st := started0 QosAtLeastOnce in
  let sys := run (ActSubscribedPublish 0 :: worker_cycle) (WTop, st) in
  heap st !! 0%nat = Some (Publish (hello QosAtLeastOnce))
  /\ fst sys = WTop
  /\ messages (pub (sess (snd sys))) = []
  /\ trace (snd sys) =
     trace st ++
       [EvWriteMessage 1
          (Some (Publish (mkPublish QosAtLeastOnce "a/b" [Byte.x68; Byte.x69]
                            false false 1)))]
  /\ ack_pubOut (sess (snd sys)) !! 1%Z = Some 1%nat.
Proof.
  intros st sys.
  assert (Hm : heap st !! 0%nat = Some (Publish (hello QosAtLeastOnce)))
    by (vm_compute; reflexivity).
  assert (Hq : pm_qos (hello QosAtLeastOnce) <> QosAtMostOnce) by discriminate.
  assert (Hf : heap st !! next_loc st = None) by (vm_compute; reflexivity).
  assert (He : messages (pub (sess st)) = []) by (vm_compute; reflexivity).
  assert (Hd : isDone (pub (sess st)) = false) by (vm_compute; reflexivity).
  pose proof (qos_message_delivered st 0%nat _ Hm Hq Hf He Hd)
    as (H1 & H2 & H3 & _ & _ & H4 & _).
  split; [exact Hm|]. split; [exact H1|]. split; [exact H2|].
  split; [vm_compute in H3; vm_compute; exact H3|].
  subst sys. rewrite H4. vm_compute. reflexivity.
Defined.
